(** * Shallow embedding of regional_downscaling/provider/preprocess.py

    The preprocessing pipeline of the repository works on xarray Datasets.
    A Dataset is modelled by its coordinate variables and its data variables,
    each an ordered association list from names to variables; a variable
    carries its named dimensions with their sizes, its values flattened in
    C order, and its attribute mapping.  Floating-point values are modelled
    as rationals [Q].  Python exceptions are the [Err] branch of [result].
    The operations of xarray that the module calls (rename, rename_vars,
    assign_coords, selection by a list of names, drop_vars, expand_dims,
    __setitem__, reindex) are embedded with the checks xarray performs.

    Besides the module, the file embeds [get_output_path] of
    provider/download.py (the path of a downloaded file, as the string given
    to [Path]) and [provider_cli] of cli.py, which downloads, opens,
    preprocesses and writes a Dataset; the downloads and the file accesses
    are parameters acting on an abstract world. *)

From Stdlib Require Import QArith Qminmax Lqa String Ascii List Bool ZArith Permutation Sorted.
From stdpp Require Import base gmap strings list sorting pretty.

Import ListNotations.
Open Scope string_scope.

(* ------------------------------------------------------------------ *)
(** ** Exceptions and the result monad *)

Inductive exn :=
| KeyError (k : string)
| ValueError
| AttributeError (k : string)
| TypeError
| NotImplementedError.

Inductive result (A : Type) :=
| Ok (a : A)
| Err (e : exn).
Arguments Ok {A} a.
Arguments Err {A} e.

Definition rbind {A B} (m : result A) (k : A -> result B) : result B :=
  match m with Ok a => k a | Err e => Err e end.

Notation "'let!' x := m 'in' k" := (rbind m (fun x => k))
  (at level 200, x name, m at level 100, k at level 200).

(* ------------------------------------------------------------------ *)
(** ** Datasets *)

Record variable := mkVar {
  vdims : list (string * nat);
  vdata : list Q;
  vattrs : list (string * string)
}.

Record Dataset := mkDs {
  coords : list (string * variable);
  data_vars : list (string * variable)
}.

Fixpoint assoc {A} (k : string) (l : list (string * A)) : option A :=
  match l with
  | [] => None
  | (k', a) :: l' => if String.eqb k k' then Some a else assoc k l'
  end.

Definition memb (k : string) (l : list string) : bool :=
  existsb (String.eqb k) l.

(** [dataset.variables]: coordinates and data variables together. *)
Definition variables (ds : Dataset) : list (string * variable) :=
  coords ds ++ data_vars ds.

Definition dim_names (v : variable) : list string := map fst (vdims v).

(** [k in dataset.dims]: the dimensions of a Dataset are those of its
    variables. *)
Definition in_dims (k : string) (ds : Dataset) : bool :=
  existsb (fun '(_, v) => memb k (dim_names v)) (variables ds).

(** [k in dataset.coords] *)
Definition in_coords (k : string) (ds : Dataset) : bool :=
  memb k (map fst (coords ds)).

(** [k in dataset] (membership in [dataset.variables]) *)
Definition in_variables (k : string) (ds : Dataset) : bool :=
  memb k (map fst (variables ds)).

Fixpoint nodupb (l : list string) : bool :=
  match l with
  | [] => true
  | x :: l' => negb (memb x l') && nodupb l'
  end.

(** [name_dict.get(k, k)] *)
Definition rename_name (nd : list (string * string)) (k : string) : string :=
  match assoc k nd with Some k' => k' | None => k end.

Definition rename_var_dims (nd : list (string * string)) (v : variable) : variable :=
  mkVar (map (fun '(d, n) => (rename_name nd d, n)) (vdims v)) (vdata v) (vattrs v).

(** Rebuilding the variables under their new names: xarray's
    [_rename_vars] raises ValueError ("the new name ... conflicts") when two
    variables end up under the same name. *)
Definition rebuild (cs vs : list (string * variable)) : result Dataset :=
  if nodupb (map fst (cs ++ vs)) then Ok (mkDs cs vs) else Err ValueError.

(** [Dataset.rename(name_dict)]: every key must be a variable or a
    dimension; variables and dimensions are renamed. *)
Definition ds_rename (nd : list (string * string)) (ds : Dataset) : result Dataset :=
  if forallb (fun '(k, _) => in_variables k ds || in_dims k ds) nd then
    rebuild
      (map (fun '(k, v) => (rename_name nd k, rename_var_dims nd v)) (coords ds))
      (map (fun '(k, v) => (rename_name nd k, rename_var_dims nd v)) (data_vars ds))
  else Err ValueError.

(** [Dataset.rename_vars(name_dict)]: every key must be a variable;
    only variable names change, dimensions keep theirs. *)
Definition rename_vars (nd : list (string * string)) (ds : Dataset) : result Dataset :=
  if forallb (fun '(k, _) => in_variables k ds) nd then
    rebuild
      (map (fun '(k, v) => (rename_name nd k, v)) (coords ds))
      (map (fun '(k, v) => (rename_name nd k, v)) (data_vars ds))
  else Err ValueError.

(** What a stage returns: the argument object itself ([return dataset]) or a
    newly built Dataset.  The distinction matters for aliasing. *)
Inductive returned :=
| Self
| Fresh (d : Dataset).

Definition value_of (ds : Dataset) (r : returned) : Dataset :=
  match r with Self => ds | Fresh d => d end.

(* ------------------------------------------------------------------ *)
(** ** fix_spatial_coord_names *)

Definition has (k : string) (ds : Dataset) : bool :=
  in_dims k ds || in_coords k ds.

Definition fix_spatial_coord_names_obj (dataset : Dataset) : result returned :=
  if has "rlon" dataset && has "longitude" dataset then
    let! d := ds_rename [("rlon", "x"); ("rlat", "y"); ("longitude", "lon"); ("latitude", "lat")] dataset in
    Ok (Fresh d)
  else if has "i" dataset && has "longitude" dataset then
    let! d := ds_rename [("i", "x"); ("j", "y"); ("longitude", "lon"); ("latitude", "lat")] dataset in
    Ok (Fresh d)
  else if has "rlon" dataset then
    let! d := ds_rename [("rlon", "x"); ("rlat", "y")] dataset in Ok (Fresh d)
  else if has "lon" dataset then
    Ok Self
  else if in_dims "x" dataset || in_coords "y" dataset then
    let! d := ds_rename [("x", "lon"); ("y", "lat")] dataset in Ok (Fresh d)
  else if has "longitude" dataset then
    let! d := ds_rename [("longitude", "lon"); ("latitude", "lat")] dataset in Ok (Fresh d)
  else Err NotImplementedError.

(** The Dataset value returned by [fix_spatial_coord_names]. *)
Definition fix_spatial_coord_names (ds : Dataset) : result Dataset :=
  let! r := fix_spatial_coord_names_obj ds in Ok (value_of ds r).

(* ------------------------------------------------------------------ *)
(** ** Dataset access and update *)

Fixpoint rmap {A B} (f : A -> result B) (l : list A) : result (list B) :=
  match l with
  | [] => Ok []
  | x :: l' => let! y := f x in let! ys := rmap f l' in Ok (y :: ys)
  end.

(** The size of dimension [k]: that of the first variable along [k]. *)
Fixpoint dim_size (k : string) (l : list (string * variable)) : option nat :=
  match l with
  | [] => None
  | (_, v) :: l' => match assoc k (vdims v) with Some n => Some n | None => dim_size k l' end
  end.

(** The variable xarray makes up for a dimension [k] that has no variable of
    its own ([_get_virtual_variable]): the range index [0, 1, ..., n-1]
    along [k], with no attributes. *)
Definition range_var (k : string) (n : nat) : variable :=
  mkVar [(k, n)] (map (fun i => inject_Z (Z.of_nat i)) (seq 0 n)) [].

(** [dataset[k]]: the variable [k], or the range index of a dimension [k]
    without a variable; KeyError otherwise.  (xarray also reads a name
    with a dot, such as [time.year], as a virtual variable; the names the
    module looks up are variables of the Dataset, or lon, longitude and
    lat.) *)
Definition getitem (k : string) (ds : Dataset) : result variable :=
  match assoc k (variables ds) with
  | Some v => Ok v
  | None =>
      match dim_size k (variables ds) with
      | Some n => Ok (range_var k n)
      | None => Err (KeyError k)
      end
  end.

(** [dataset.k]: xarray's attribute sources are the data variables, the
    coordinates and the dimensions (read as [dataset[k]]), then the global
    attributes of the Dataset.  Datasets are modelled without global
    attributes (the module never reads or writes them), so this last source
    is empty and a name found nowhere else raises AttributeError. *)
Definition getattr (k : string) (ds : Dataset) : result variable :=
  match getitem k ds with Ok v => Ok v | Err _ => Err (AttributeError k) end.

Definition replace_in (k : string) (v : variable) (l : list (string * variable))
  : list (string * variable) :=
  map (fun '(k', v') => if String.eqb k k' then (k', v) else (k', v')) l.

(** [v] is a dimension coordinate [k]: its only dimension is [k]. *)
Definition is_index_of (k : string) (v : variable) : bool :=
  match vdims v with [(d, _)] => String.eqb d k | _ => false end.

(** [dataset[k] = v]: a coordinate stays a coordinate, a data variable is
    replaced; a new name is appended, as a coordinate when it names the
    only dimension of [v] (xarray's merge turns a variable named after a
    dimension into a coordinate), as a data variable otherwise. *)
Definition setitem (k : string) (v : variable) (ds : Dataset) : Dataset :=
  if in_coords k ds then mkDs (replace_in k v (coords ds)) (data_vars ds)
  else if memb k (map fst (data_vars ds)) then mkDs (coords ds) (replace_in k v (data_vars ds))
  else if is_index_of k v then mkDs (coords ds ++ [(k, v)]) (data_vars ds)
  else mkDs (coords ds) (data_vars ds ++ [(k, v)]).

Definition scalar (x : Q) : variable := mkVar [] [x] [].

(** [ds.assign_coords({k: value})]: a variable already called [k] is
    replaced; the name becomes a coordinate. *)
Definition assign_coord (k : string) (v : variable) (ds : Dataset) : Dataset :=
  mkDs (if in_coords k ds then replace_in k v (coords ds) else coords ds ++ [(k, v)])
       (List.filter (fun '(k', _) => negb (String.eqb k k')) (data_vars ds)).

(** [ds[names]] with a list of names (xarray's [_copy_listed]): the listed
    variables, and every coordinate whose dimensions all occur among the
    dimensions of the listed variables.  A listed name that is only a
    dimension gives its range index ([getitem]), which becomes a
    coordinate. *)
Definition select_vars (names : list string) (ds : Dataset) : result Dataset :=
  let! sel := rmap (fun n => let! v := getitem n ds in Ok (n, v)) names in
  let needed := flat_map (fun '(_, v) => dim_names v) sel in
  Ok (mkDs (List.filter (fun '(_, v) => forallb (fun d => memb d needed) (dim_names v)) (coords ds) ++
            List.filter (fun '(n, _) => negb (in_variables n ds)) sel)
           (List.filter (fun '(n, _) => negb (in_coords n ds) && in_variables n ds) sel)).

(** [ds.drop_vars(names)] (errors="raise"). *)
Definition drop_vars (names : list string) (ds : Dataset) : result Dataset :=
  if forallb (fun n => in_variables n ds) names then
    Ok (mkDs (List.filter (fun '(k, _) => negb (memb k names)) (coords ds))
             (List.filter (fun '(k, _) => negb (memb k names)) (data_vars ds)))
  else Err ValueError.

(** [ds.expand_dims(d)]: fails when [d] is already a dimension or a
    non-scalar variable; a scalar variable [d] becomes the size-1
    dimension coordinate; every data variable gets the new axis first;
    the other coordinates are unchanged. *)
Definition expand_dims (d : string) (ds : Dataset) : result Dataset :=
  if in_dims d ds then Err ValueError
  else if existsb (fun '(k, v) => String.eqb k d && negb (bool_decide (vdims v = []))) (variables ds)
  then Err ValueError
  else
    let promote := fun v => mkVar [(d, 1)] (vdata v) (vattrs v) in
    Ok (mkDs (map (fun '(k, v) => if String.eqb k d then (k, promote v) else (k, v)) (coords ds))
             (map (fun '(k, v) => if String.eqb k d then (k, promote v)
                                  else (k, mkVar ((d, 1) :: vdims v) (vdata v) (vattrs v)))
                  (data_vars ds))).

(* ------------------------------------------------------------------ *)
(** ** rename_and_delete_variables *)

Definition main_coords : list string :=
  ["time"; "lon"; "lat"; "height"; "x"; "y"; "latitude"; "longitude"].

Definition count_str (s : string) (l : list string) : nat :=
  List.length (List.filter (String.eqb s) l).

(** [sorted(l1) != sorted(l2)] compares the two lists as multisets. *)
Definition same_sorted (l1 l2 : list string) : bool :=
  forallb (fun s => Nat.eqb (count_str s l1) (count_str s l2)) (l1 ++ l2).

(** [try: var_name = var_mapping[variable] except KeyError: var_name = variable] *)
Definition var_name_of (var_mapping : gmap string string) (variable : string) : string :=
  match var_mapping !! variable with Some s => s | None => variable end.

Definition rename_and_delete_variables (ds : Dataset) (variable : string)
    (var_mapping : gmap string string) : result Dataset :=
  let var_name := var_name_of var_mapping variable in
  let! ds := rename_vars [(var_name, variable)] ds in
  let ds := assign_coord "height" (scalar 2) ds in
  let! ds := select_vars [variable] ds in
  let! ds :=
    (if negb (same_sorted (map fst (coords ds)) main_coords) then
       drop_vars (List.filter (fun dim => negb (memb dim main_coords)) (map fst (coords ds))) ds
     else Ok ds) in
  if negb (in_dims "time" ds) then expand_dims "time" ds else Ok ds.

(* ------------------------------------------------------------------ *)
(** ** fix_360_longitudes: the pieces *)

(** Python's [sub in s] on strings. *)
Fixpoint str_contains (sub s : string) : bool :=
  String.prefix sub s ||
  match s with EmptyString => false | String _ s' => str_contains sub s' end.

Definition Qltb (x y : Q) : bool := negb (Qle_bool y x).

(** [.max()] and [.min()] over all the values; numpy raises on an empty
    array. *)
Definition qmax (l : list Q) : result Q :=
  match l with [] => Err ValueError | x :: l' => Ok (fold_left Qmax l' x) end.
Definition qmin (l : list Q) : result Q :=
  match l with [] => Err ValueError | x :: l' => Ok (fold_left Qmin l' x) end.

(** [lon.where(lon <= 180, other=lon - 360)], element by element. *)
Definition rewrap (x : Q) : Q := if Qle_bool x 180 then x else x - 360.

(** The first statement of [fix_360_longitudes] after choosing [lonname]:
    [Some d] when the assignment [dataset[lonname] = ...] is executed
    ([where] keeps the attributes). *)
Definition fix_360_rewrap (dataset : Dataset) (lonname : string) : result (option Dataset) :=
  let! lon := getitem lonname dataset in
  let! mx := qmax (vdata lon) in
  let! mn := qmin (vdata lon) in
  if Qltb 180 mx && Qle_bool 0 mn then
    Ok (Some (setitem lonname (mkVar (vdims lon) (map rewrap (vdata lon)) (vattrs lon)) dataset))
  else Ok None.

#[global] Instance Qle_rel_dec : RelDecision Qle :=
  fun x y => match Qlt_le_dec y x with
             | left H => right (Qlt_not_le y x H)
             | right H => left H
             end.

(** [sorted(...)] on the longitude values (Python's sort is a stable merge
    sort). *)
Definition py_sorted (l : list Q) : list Q := merge_sort Qle l.

Fixpoint index_of (x : Q) (l : list Q) : nat :=
  match l with [] => 0 | y :: l' => if Qeq_bool x y then 0 else S (index_of x l') end.

Fixpoint nodupQ (l : list Q) : bool :=
  match l with [] => true | x :: l' => negb (existsb (Qeq_bool x) l') && nodupQ l' end.

(** [pandas.Index.equals]: the same values in the same order. *)
Fixpoint qlist_eqb (l1 l2 : list Q) : bool :=
  match l1, l2 with
  | [], [] => true
  | x :: l1', y :: l2' => Qeq_bool x y && qlist_eqb l1' l2'
  | _, _ => false
  end.

Fixpoint prodn (ns : list nat) : nat :=
  match ns with [] => 1 | n :: ns' => n * prodn ns' end.

(** Offset of a multi-index in C order. *)
Fixpoint flat_index (ns idx : list nat) : nat :=
  match ns, idx with
  | n :: ns', i :: idx' => i * prodn ns' + flat_index ns' idx'
  | _, _ => 0
  end.

(** All multi-indices of a shape, in C order. *)
Fixpoint multi_indices (ns : list nat) : list (list nat) :=
  match ns with
  | [] => [[]]
  | n :: ns' => flat_map (fun i => map (cons i) (multi_indices ns')) (seq 0 n)
  end.

Fixpoint position (d : string) (l : list string) : option nat :=
  match l with
  | [] => None
  | x :: l' => if String.eqb d x then Some 0 else option_map S (position d l')
  end.

(** Reordering a variable along dimension [d]: position [i] of the new axis
    takes position [perm[i]] of the old one. *)
Definition permute_along (d : string) (perm : list nat) (v : variable) : variable :=
  match position d (dim_names v) with
  | None => v
  | Some j =>
      let ns := map snd (vdims v) in
      mkVar (vdims v)
        (map (fun idx => nth (flat_index ns (<[j := nth (nth j idx 0) perm 0]> idx)) (vdata v) 0%Q)
             (multi_indices ns))
        (vattrs v)
  end.

(** [dataset.reindex(lonname=sorted(dataset[lonname]))].  Iterating a
    0-d array is a TypeError; comparing the rows of a 2-D array, or
    reindexing along a name that is not a dimension, is a ValueError.
    When the labels are distinct, every target label occurs once in the
    index (the target is a permutation of it): every variable is reordered
    along [lonname] (by the identity when the labels are already sorted,
    where xarray leaves the data as it is) and the index becomes the target
    labels; a dimension that had no variable gets its index as a new
    coordinate.  With repeated labels, xarray skips a reindex whose target
    equals the index, and raises ValueError otherwise. *)
Definition reindex_sorted (dataset : Dataset) (lonname : string) : result Dataset :=
  let! lon := getitem lonname dataset in
  match vdims lon with
  | [] => Err TypeError
  | [(d, _)] =>
      let target := py_sorted (vdata lon) in
      if negb (String.eqb d lonname) then Err ValueError
      else if nodupQ (vdata lon) then
        let perm := map (fun t => index_of t (vdata lon)) target in
        let re := fun '(k, v) =>
          (k, if String.eqb k lonname then mkVar (vdims v) target (vattrs v)
              else permute_along lonname perm v) in
        let cs := map re (coords dataset) in
        Ok (mkDs (if in_variables lonname dataset then cs
                  else cs ++ [(lonname, mkVar (vdims lon) target (vattrs lon))])
                 (map re (data_vars dataset)))
      else if qlist_eqb target (vdata lon) then Ok dataset
      else Err ValueError
  | _ => Err ValueError
  end.

(* ------------------------------------------------------------------ *)
(** ** convert_units *)

Definition UNIT_CONVERTER : list (string * (Q * Q * string)) := [
  ("Kelvin", (1%Q, (-(27315 # 100))%Q, "Celsius"));
  ("K", (1%Q, (-(27315 # 100))%Q, "Celsius"));
  ("Fahrenheit", ((5 # 9)%Q, (-(160 # 9))%Q, "Celsius"));
  ("Celsius", (1%Q, 0%Q, "Celsius"));
  ("degC", (1%Q, 0%Q, "Celsius"));
  ("m hour**-1", (24000%Q, 0%Q, "mm"));
  ("mm day**-1", (1%Q, 0%Q, "mm"));
  ("mm", (1%Q, 0%Q, "mm"));
  ("m", (1000%Q, 0%Q, "mm"));
  ("mm s**-1", (86400%Q, 0%Q, "mm"));
  ("kg m**-2 day**-1", (1%Q, 0%Q, "mm"));
  ("kg m-2 s-1", (86400%Q, 0%Q, "mm"));
  ("kg m**-2", (1%Q, 0%Q, "mm"));
  ("kg m-2", (1%Q, 0%Q, "mm"));
  ("m of water equivalent", (1000%Q, 0%Q, "mm"));
  ("m s**-1", (1%Q, 0%Q, "m s-1"));
  ("m s-1", (1%Q, 0%Q, "m s-1"));
  ("km h**-1", ((10 # 36)%Q, 0%Q, "m s-1"));
  ("knots", ((51 # 100)%Q, 0%Q, "m s-1"));
  ("kts", ((51 # 100)%Q, 0%Q, "m s-1"));
  ("mph (nautical miles per hour)", ((51 # 100)%Q, 0%Q, "m s-1"));
  ("%", (1%Q, 0%Q, "%"));
  ("W m**-2", (1%Q, 0%Q, "W m-2"))
].

Definition VALID_UNITS : list (string * string) := [
  ("tas", "Celsius");
  ("mx2t", "Celsius");
  ("tasmax", "Celsius");
  ("tasmin", "Celsius");
  ("hurs", "%");
  ("clt", "%");
  ("evspsbl", "kg m-2 s-1");
  ("pr", "mm");
  ("psl", "Pa");
  ("prsn", "mm");
  ("sisonc", "%");
  ("sfcwind", "m s-1");
  ("uwind", "m s**-1");
  ("vwind", "m s**-1");
  ("mrso", "kg m-2");
  ("huss", "1");
  ("sst", "Celsius");
  ("rlds", "W m-2");
  ("rsds", "W m-2");
  ("mslp", "Pa");
  ("z", "m**2 s**-2")
].

(** [d[k]] on a Python dict. *)
Definition dict_get {A} (d : list (string * A)) (k : string) : result A :=
  match assoc k d with Some a => Ok a | None => Err (KeyError k) end.

(** [attrs[k] = x] on a dict: an existing key keeps its place, a new one
    is appended. *)
Definition set_attr (k x : string) (attrs : list (string * string)) : list (string * string) :=
  if memb k (map fst attrs) then
    map (fun '(k', y) => if String.eqb k k' then (k', x) else (k', y)) attrs
  else attrs ++ [(k, x)].

(** The attributes of [ds[ds_var] * scale + offset].  Whether arithmetic
    keeps the attributes of its operand is xarray's [keep_attrs] option,
    whose default differs between releases (dropped in older ones, kept in
    recent ones); the repository pins no version, so the conversion takes
    it as a parameter. *)
Definition arith_attrs (keep_attrs : bool) (attrs : list (string * string)) : list (string * string) :=
  if keep_attrs then attrs else [].

(** The variable [ds[ds_var]] becomes: the values scaled and offset, and
    [attrs["units"]] set on the attributes the arithmetic leaves. *)
Definition converted (keep_attrs : bool) (v : variable) (scale offset : Q) (target : string) : variable :=
  mkVar (vdims v) (map (fun x => (x * scale + offset)%Q) (vdata v))
        (set_attr "units" target (arith_attrs keep_attrs (vattrs v))).

(** One iteration of the loop of [convert_units] for [ds_var]. *)
Definition convert_var (keep_attrs : bool) (ds_var : string) (ds : Dataset) : result Dataset :=
  let! v := getitem ds_var ds in
  let! units := dict_get (vattrs v) "units" in
  let! valid := dict_get VALID_UNITS ds_var in
  if String.eqb units valid then Ok ds
  else
    let! conversion := dict_get UNIT_CONVERTER units in
    let '(scale, offset, target) := conversion in
    Ok (setitem ds_var (converted keep_attrs v scale offset target) ds).

(** The loop [for ds_var in list(ds.data_vars)], mutating [ds]: the result
    and the state the Dataset object is left in, also when an exception
    leaves the loop. *)
Fixpoint convert_loop (keep_attrs : bool) (names : list string) (ds : Dataset) : result unit * Dataset :=
  match names with
  | [] => (Ok tt, ds)
  | n :: names' =>
      match convert_var keep_attrs n ds with
      | Ok ds' => convert_loop keep_attrs names' ds'
      | Err e => (Err e, ds)
      end
  end.

(* ------------------------------------------------------------------ *)
(** ** Objects and aliasing

    Python passes Datasets by reference.  The objects live in a heap (a list
    indexed by location); a stage reads the object it is given, mutates it in
    place ([__setitem__]), returns it, or allocates a new one. *)

Definition heap := list Dataset.
Definition loc := nat.
Definition st (A : Type) := heap -> result A * heap.

Definition sret {A} (a : A) : st A := fun h => (Ok a, h).
Definition sbind {A B} (m : st A) (k : A -> st B) : st B :=
  fun h => match m h with
           | (Ok a, h') => k a h'
           | (Err e, h') => (Err e, h')
           end.
Notation "x <- m ;; k" := (sbind m (fun x => k))
  (at level 100, m at next level, right associativity).

Definition lift {A} (r : result A) : st A := fun h => (r, h).
(** References held by the program never dangle. *)
Definition load (l : loc) : st Dataset :=
  fun h => match h !! l with Some d => (Ok d, h) | None => (Err ValueError, h) end.
Definition store (l : loc) (d : Dataset) : st unit := fun h => (Ok tt, <[l := d]> h).
Definition alloc (d : Dataset) : st loc := fun h => (Ok (List.length h), (h ++ [d])%list).

Definition fix_spatial_coord_names_h (l : loc) : st loc :=
  dataset <- load l;;
  r <- lift (fix_spatial_coord_names_obj dataset);;
  match r with Self => sret l | Fresh d => alloc d end.

(** Every xarray call in [rename_and_delete_variables] returns a new object;
    only the last one is kept. *)
Definition rename_and_delete_variables_h (l : loc) (variable : string)
    (var_mapping : gmap string string) : st loc :=
  ds <- load l;;
  d <- lift (rename_and_delete_variables ds variable var_mapping);;
  alloc d.

Definition fix_360_longitudes_h (l : loc) (project : string) (lonname : string) : st loc :=
  dataset <- load l;;
  let lonname := if negb (str_contains "CERRA" project) then lonname else "longitude" in
  upd <- lift (fix_360_rewrap dataset lonname);;
  _ <- (match upd with Some d => store l d | None => sret tt end);;
  dataset <- load l;;
  if negb (str_contains "CERRA" project) then
    lat <- lift (getattr "lat" dataset);;
    if negb (Nat.eqb (List.length (vdims lat)) 2) then
      d <- lift (reindex_sorted dataset lonname);; alloc d
    else sret l
  else sret l.

Definition convert_units_h (keep_attrs : bool) (l : loc) : st loc :=
  ds <- load l;;
  let '(r, ds') := convert_loop keep_attrs (map fst (data_vars ds)) ds in
  _ <- store l ds';;
  _ <- lift r;;
  sret l.

(** [preprocess(ds, project, variable, variable_map)]; [fix_360_longitudes]
    is called with its default [lonname="lon"]. *)
Definition preprocess_h (keep_attrs : bool) (l : loc) (project variable : string)
    (variable_map : gmap string string) : st loc :=
  l <- fix_spatial_coord_names_h l;;
  l <- rename_and_delete_variables_h l variable variable_map;;
  l <- fix_360_longitudes_h l project "lon";;
  l <- convert_units_h keep_attrs l;;
  sret l.

(** Calling a stage on a Dataset that nothing else references: the value
    returned, and the value the argument object is left with. *)
Definition call (f : loc -> st loc) (ds : Dataset) : result Dataset * Dataset :=
  match f 0 [ds] with
  | (Ok l, h) => (match h !! l with Some d => Ok d | None => Err ValueError end,
                  default ds (h !! 0))
  | (Err e, h) => (Err e, default ds (h !! 0))
  end.

Definition fix_360_longitudes (ds : Dataset) (project : string) : result Dataset :=
  fst (call (fun l => fix_360_longitudes_h l project "lon") ds).

Definition convert_units (keep_attrs : bool) (ds : Dataset) : result Dataset :=
  fst (call (convert_units_h keep_attrs) ds).

Definition preprocess (keep_attrs : bool) (ds : Dataset) (project variable : string)
    (variable_map : gmap string string) : result Dataset :=
  fst (call (fun l => preprocess_h keep_attrs l project variable variable_map) ds).

(* ------------------------------------------------------------------ *)
(** ** Auxiliary definitions and example Datasets *)

Definition present_in (k : string) (ds : Dataset) : Prop :=
  (exists n v, In (n, v) (variables ds) /\ In k (dim_names v)) \/ In k (map fst (coords ds)).

Definition rn_entry (nd : list (string * string)) (p : string * variable) : string * variable :=
  let '(k, v) := p in (rename_name nd k, rename_var_dims nd v).

Definition rotated_renaming : list (string * string) :=
  [("rlon", "x"); ("rlat", "y"); ("longitude", "lon"); ("latitude", "lat")].
Definition index_renaming : list (string * string) :=
  [("i", "x"); ("j", "y"); ("longitude", "lon"); ("latitude", "lat")].

(** Concrete datasets. *)
Definition v1 (d : string) (n : nat) (xs : list Q) : variable := mkVar [(d, n)] xs [].

(** A rotated-pole grid with its 2-D geographic coordinates. *)
Definition rotated_ds : Dataset := mkDs
  [("rlon", v1 "rlon" 3 [1; 2; 3]%Q); ("rlat", v1 "rlat" 2 [1; 2]%Q);
   ("longitude", mkVar [("rlat", 2); ("rlon", 3)] [10; 11; 12; 13; 14; 15]%Q []);
   ("latitude", mkVar [("rlat", 2); ("rlon", 3)] [40; 41; 42; 43; 44; 45]%Q [])]
  [("t2m", mkVar [("rlat", 2); ("rlon", 3)] [280; 281; 282; 283; 284; 285]%Q [("units", "K")])].

(** A rotated-pole grid without geographic coordinates. *)
Definition rotated_only_ds : Dataset := mkDs
  [("rlon", v1 "rlon" 3 [1; 2; 3]%Q); ("rlat", v1 "rlat" 2 [1; 2]%Q)]
  [("t2m", mkVar [("rlat", 2); ("rlon", 3)] [280; 281; 282; 283; 284; 285]%Q [("units", "K")])].

(** A rotated longitude axis with geographic longitudes, but no [rlat]. *)
Definition rlon_without_rlat_ds : Dataset := mkDs
  [("rlon", v1 "rlon" 3 [1; 2; 3]%Q); ("longitude", v1 "rlon" 3 [10; 11; 12]%Q)]
  [("t2m", v1 "rlon" 3 [280; 281; 282]%Q)].

(** A rotated longitude coordinate along a dimension [rlat] that has no
    variable of its own. *)
Definition rlon_on_rlat_ds : Dataset := mkDs
  [("rlon", v1 "rlat" 2 [1; 2]%Q)]
  [("t2m", v1 "rlat" 2 [280; 281]%Q)].

(** [lonname] as chosen by the first line of [fix_360_longitudes], with the
    default ["lon"]. *)
Definition lon_name (project : string) : string :=
  if negb (str_contains "CERRA" project) then "lon" else "longitude".

Definition reindex_entry (k : string) (target : list Q) (perm : list nat)
    (p : string * variable) : string * variable :=
  let '(k', v) := p in
  (k', if String.eqb k' k then mkVar (vdims v) target (vattrs v) else permute_along k perm v).

#[global] Instance Qle_total : Total Qle.
Proof. intros x y. destruct (Qlt_le_dec x y) as [H|H]; [left; apply Qlt_le_weak; exact H | right; exact H]. Qed.

(** Datasets for the Longitude Normalizer. *)
Definition lon_360_ds : Dataset := mkDs
  [("lon", v1 "lon" 5 [0; 90; 180; 270; 350]%Q); ("lat", v1 "lat" 1 [45]%Q)]
  [("t2m", mkVar [("lat", 1); ("lon", 5)] [1; 2; 3; 4; 5]%Q [("units", "K")])].



Definition cerra_land_ds : Dataset := mkDs
  [("longitude", v1 "longitude" 3 [0; 270; 90]%Q); ("latitude", v1 "latitude" 1 [45]%Q)] [].

(** The body of the loop of [convert_units] read on one entry [(n, v)] of
    [data_vars]: the entry left in its place, or the exception raised. *)
Definition convert_entry (keep_attrs : bool) (p : string * variable) : result (string * variable) :=
  let '(n, v) := p in
  let! units := dict_get (vattrs v) "units" in
  let! valid := dict_get VALID_UNITS n in
  if String.eqb units valid then Ok (n, v)
  else
    let! conversion := dict_get UNIT_CONVERTER units in
    let '(scale, offset, target) := conversion in
    Ok (n, converted keep_attrs v scale offset target).
Arguments convert_entry : simpl never.

(** The loop over a list of entries: the exception raised if any, and the
    entries as the loop leaves them. *)
Fixpoint convert_entries (keep_attrs : bool) (l : list (string * variable))
    : result unit * list (string * variable) :=
  match l with
  | [] => (Ok tt, [])
  | p :: l' =>
      match convert_entry keep_attrs p with
      | Ok p' => let '(r, l'') := convert_entries keep_attrs l' in (r, p' :: l'')
      | Err e => (Err e, p :: l')
      end
  end.

(** An xarray Dataset never holds two variables of the same name. *)
Definition names_unique (ds : Dataset) : Prop := NoDup (map fst (variables ds)).

Definition furlong_ds : Dataset := mkDs []
  [("tas", mkVar [("time", 1%nat)] [300%Q] [("units", "K")]);
   ("pr", mkVar [("time", 1%nat)] [1%Q] [("units", "furlongs-per-fortnight")])].

Definition no_units_ds : Dataset := mkDs []
  [("tas", mkVar [("time", 1%nat)] [20%Q] [("units", "Celsius")]);
   ("pr", mkVar [("time", 1%nat)] [3%Q] [])].

Definition flux_as_tas_ds : Dataset := mkDs []
  [("tas", mkVar [("time", 1%nat)] [250%Q] [("units", "W m**-2")])].

Definition rsds_ds : Dataset := mkDs []
  [("rsds", mkVar [("time", 1%nat)] [250%Q] [("units", "W m**-2")]);
   ("tas", mkVar [("time", 1%nat)] [290%Q] [("units", "K")]);
   ("psl", mkVar [("time", 1%nat)] [10%Q] [("units", "Celsius")])].

Definition era5_ds : Dataset := mkDs
  [("lon", v1 "lon" 2 [0%Q; 1%Q]); ("lat", v1 "lat" 1 [45%Q]); ("realization", scalar 1)]
  [("t2m", mkVar [("lat", 1%nat); ("lon", 2%nat)] [280%Q; 281%Q] [("units", "K")]);
   ("d2m", mkVar [("lat", 1%nat); ("lon", 2%nat)] [270%Q; 271%Q] [("units", "K")])].

Definition era5_clash_ds : Dataset := mkDs
  [("lon", v1 "lon" 2 [0%Q; 1%Q]); ("lat", v1 "lat" 1 [45%Q])]
  [("t2m", mkVar [("lat", 1%nat); ("lon", 2%nat)] [280%Q; 281%Q] [("units", "K")]);
   ("tas", mkVar [("lat", 1%nat); ("lon", 2%nat)] [7%Q; 8%Q] [("units", "K")])].

(** [h'] holds the same objects as [h] at every location below [n0]. *)
Definition keeps (n0 : nat) (h h' : heap) : Prop :=
  forall l, (l < n0)%nat -> h' !! l = h !! l.

(** What a stage may do to the objects below [n0]: nothing; the heap only
    grows. *)
Definition frame (n0 : nat) (m : st loc) : Prop :=
  forall h r h', (n0 <= List.length h)%nat -> m h = (r, h') ->
    keeps n0 h h' /\ (n0 <= List.length h')%nat.

(** ... and, for a stage that returns an object of its own, the object
    returned is at or above [n0]. *)
Definition fresh_frame (n0 : nat) (m : st loc) : Prop :=
  forall h r h', (n0 <= List.length h)%nat -> m h = (r, h') ->
    keeps n0 h h' /\ (n0 <= List.length h')%nat /\ (forall l, r = Ok l -> (n0 <= l)%nat).

(** A temperature in Fahrenheit, with a second attribute. *)
Definition fahrenheit_ds : Dataset := mkDs []
  [("tas", mkVar [("time", 1%nat)] [212%Q] [("units", "Fahrenheit"); ("long_name", "air temperature")])].

(* ------------------------------------------------------------------ *)
(** ** The pipeline, stage by stage *)

(** A stage run on the heap computes [f] on the Dataset at the location it
    is given: it returns a location holding the value of [f], or raises the
    exception [f] raises. *)
Definition computes (m : loc -> st loc) (f : Dataset -> result Dataset) : Prop :=
  forall l (h : heap) d, h !! l = Some d ->
    match m l h with
    | (Ok l', h') => exists d', f d = Ok d' /\ h' !! l' = Some d'
    | (Err e, _) => f d = Err e
    end.

(** The body of [preprocess] read as values: each stage applied to the
    Dataset the previous one returned. *)
Definition preprocess_stages (keep_attrs : bool) (ds : Dataset) (project variable : string)
    (variable_map : gmap string string) : result Dataset :=
  let! ds := fix_spatial_coord_names ds in
  let! ds := rename_and_delete_variables ds variable variable_map in
  let! ds := fix_360_longitudes ds project in
  convert_units keep_attrs ds.

(** What each variable of a list carries besides its name: the sizes of
    its dimensions, its values and its attributes, in order. *)
Definition contents (l : list (string * variable)) : list (list nat * list Q * list (string * string)) :=
  map (fun '(_, v) => (map snd (vdims v), vdata v, vattrs v)) l.


(** The names and dimensions of a list of variables. *)
Definition dims_of (l : list (string * variable)) : list (string * list (string * nat)) :=
  map (fun '(k, v) => (k, vdims v)) l.

(* ------------------------------------------------------------------ *)
(** ** download.py: get_output_path, and cli.py: provider_cli *)

(** [value if value else None] for the optional string arguments: [None]
    and the empty string are false. *)
Definition truthy_str (o : option string) : option string :=
  match o with Some s => if String.eqb s EmptyString then None else Some s | None => None end.

(** [s.split(":")[0]] *)
Fixpoint split_colon_head (s : string) : string :=
  match s with
  | EmptyString => EmptyString
  | String c s' => if Ascii.eqb c ":"%char then EmptyString else String c (split_colon_head s')
  end.

(** [get_output_path] (download.py): the string given to [Path(...)].  The
    day and the hour are strings or [None]; [Path] is a function of this
    string, so equal strings give equal paths. *)
Definition get_output_path (catalogue_entry output_directory variable : string)
    (day : option string) (month year : string) (hour : option string) : string :=
  let date_str :=
    match truthy_str day, truthy_str hour with
    | Some d, Some h => d ++ month ++ year ++ "_" ++ split_colon_head h
    | Some d, None => d ++ month ++ year
    | None, _ => month ++ year
    end in
  output_directory ++ "/" ++ catalogue_entry ++ "/" ++ variable ++ "/" ++ variable ++ "_" ++ date_str ++ ".nc".

(** [float(n)] for a Python int: rounded to 53 significant bits, ties to
    even; [None] when the rounded value reaches [2^1024] (OverflowError). *)
Definition py_float_of_int (n : Z) : option Z :=
  let a := Z.abs n in
  let k := (Z.log2 a - 52)%Z in
  let r :=
    if (k <=? 0)%Z then a
    else
      let q := (a / 2 ^ k)%Z in
      let rem := (a mod 2 ^ k)%Z in
      let half := (2 ^ (k - 1))%Z in
      let q' := if (half <? rem)%Z || ((rem =? half)%Z && Z.odd q) then (q + 1)%Z else q in
      (q' * 2 ^ k)%Z in
  if (2 ^ 1024 <=? r)%Z then None else Some (Z.sgn n * r)%Z.

(** ["{:02.0f}".format(n)] for a Python int [n]: the value as a float,
    printed with no decimals, zero-padded to width 2 after the sign;
    [None] is the OverflowError of the conversion. *)
Definition format_02_0f (n : Z) : option string :=
  match py_float_of_int n with
  | None => None
  | Some r =>
      let s := pretty (Z.abs r) in
      Some (if (r <? 0)%Z then "-" ++ s
            else if (String.length s <? 2)%nat then "0" ++ s else s)
  end.

(** The exceptions [provider_cli] raises: those of the code it calls, and
    the OverflowError of the month's conversion to float. *)
Inductive cli_exn :=
| PyExn (e : exn)
| OverflowError.

(** [provider_cli] (cli.py).  The downloads, [xarray.open_dataset] and
    [to_netcdf] act on a world [W] the CLI does not inspect; they are the
    parameters of the section.  The download functions take the variable,
    year, month, day, time and output directory. *)
Section provider_cli.
Context {W : Type}.
Variable download_cerra_data download_era5_data :
  string -> string -> string -> option string -> option string -> string -> W -> result string * W.
Variable open_dataset : string -> W -> result Dataset * W.
Variable to_netcdf : Dataset -> string -> W -> result unit * W.
(** xarray's [keep_attrs] option, see [arith_attrs]. *)
Variable keep_attrs : bool.

Definition provider_cli (output_dir project variable : string) (year month : Z) (w : W)
    : (unit + cli_exn) * W :=
  let day : option string := None in
  let time : option string := None in
  let download :=
    if String.eqb project "CERRA" then Some download_cerra_data
    else if String.eqb project "ERA5" then Some download_era5_data
    else None in
  match download with
  | None => (inr (PyExn NotImplementedError), w)
  | Some dl =>
      let cds_variable := [("tas", "2m_temperature")] in
      match assoc variable cds_variable with
      | None => (inr (PyExn (KeyError variable)), w)
      | Some v =>
          match format_02_0f month with
          | None => (inr OverflowError, w)
          | Some m =>
              match dl v (pretty year) m day time output_dir w with
              | (Err e, w1) => (inr (PyExn e), w1)
              | (Ok data_path, w1) =>
                  match open_dataset data_path w1 with
                  | (Err e, w2) => (inr (PyExn e), w2)
                  | (Ok data_raw, w2) =>
                      match preprocess keep_attrs data_raw project "tas" {["tas" := "t2m"]} with
                      | Err e => (inr (PyExn e), w2)
                      | Ok data_processed =>
                          match to_netcdf data_processed "/tmp/trial_processed.nc" w2 with
                          | (Err e, w3) => (inr (PyExn e), w3)
                          | (Ok _, w3) => (inl tt, w3)
                          end
                      end
                  end
              end
          end
      end
  end.
End provider_cli.

(** The number written by a string of two decimal digits. *)
Definition two_digit_value (s : string) : Z :=
  match s with
  | String a (String b EmptyString) =>
      (10 * (Z.of_nat (nat_of_ascii a) - 48) + (Z.of_nat (nat_of_ascii b) - 48))%Z
  | _ => (-1)%Z
  end.

(** ["{:02.0f}"] writes every month from 0 to 99 with two digits. *)
Definition format_02_0f_small_check : bool :=
  forallb (fun n => match format_02_0f (Z.of_nat n) with
                    | Some s => Nat.eqb (String.length s) 2 && Z.eqb (two_digit_value s) (Z.of_nat n)
                    | None => false
                    end) (seq 0 100).

(* ================================================================== *)
(** * Properties *)

(** ** General lemmas on names *)

Lemma memb_true k l : memb k l = true <-> In k l.
Proof.
  unfold memb. rewrite existsb_exists. split.
  - intros [x [Hx Heq]]. apply String.eqb_eq in Heq. subst. exact Hx.
  - intros H. exists k. split; [exact H | apply String.eqb_refl].
Qed.

Lemma memb_false k l : memb k l = false <-> ~ In k l.
Proof.
  split.
  - intros H Hin. apply memb_true in Hin. congruence.
  - intros H. destruct (memb k l) eqn:E; [|reflexivity].
    apply memb_true in E. contradiction.
Qed.

Lemma has_iff k ds : has k ds = true <-> present_in k ds.
Proof.
  unfold has, in_dims, in_coords, present_in.
  rewrite orb_true_iff, existsb_exists, memb_true. split.
  - intros [[[n v] [Hin Hm]] | H]; [left | right; exact H].
    exists n, v. split; [exact Hin | apply memb_true; exact Hm].
  - intros [[n [v [Hin Hm]]] | H]; [left | right; exact H].
    exists (n, v). split; [exact Hin | apply memb_true; exact Hm].
Qed.

Lemma has_present k ds : has k ds = true -> in_variables k ds || in_dims k ds = true.
Proof.
  unfold has, in_variables, in_coords, variables. intros H.
  apply orb_true_iff in H as [H | H]; apply orb_true_iff; [right; exact H | left].
  apply memb_true in H. apply memb_true. rewrite map_app. apply in_or_app. left. exact H.
Qed.

Lemma ds_rename_ok nd ds d :
  ds_rename nd ds = Ok d ->
  coords d = map (rn_entry nd) (coords ds) /\ data_vars d = map (rn_entry nd) (data_vars ds).
Proof.
  unfold ds_rename, rebuild. destruct forallb; [|discriminate].
  destruct nodupb; [|discriminate]. intros H. injection H as <-.
  split; reflexivity.
Qed.

(** Every name present after a renaming is the image of a name present
    before it. *)
Lemma has_after_rename nd ds d k :
  ds_rename nd ds = Ok d -> has k d = true ->
  exists k0, has k0 ds = true /\ rename_name nd k0 = k.
Proof.
  intros Hr Hk. destruct (ds_rename_ok _ _ _ Hr) as [Hc Hv].
  apply has_iff in Hk. unfold present_in, variables in Hk. rewrite Hc, Hv in Hk.
  destruct Hk as [[n [v [Hin Hdim]]] | Hin].
  - rewrite <- map_app in Hin. apply in_map_iff in Hin as [[n0 v0] [Heq Hin0]].
    simpl in Heq. injection Heq as _ <-.
    unfold dim_names, rename_var_dims in Hdim. simpl in Hdim.
    rewrite map_map in Hdim. apply in_map_iff in Hdim as [[d0 s0] [Hd0 Hin1]].
    simpl in Hd0. exists d0. split; [|exact Hd0].
    apply has_iff. left. exists n0, v0. split; [exact Hin0|].
    apply in_map_iff. exists (d0, s0). split; [reflexivity | exact Hin1].
  - rewrite map_map in Hin. apply in_map_iff in Hin as [[n0 v0] [Heq Hin0]].
    simpl in Heq. exists n0. split; [|exact Heq].
    apply has_iff. right. apply in_map_iff. exists (n0, v0). split; [reflexivity | exact Hin0].
Qed.

(** A name that is neither a key nor a target of the renaming stays absent. *)
Lemma absent_after_rename nd ds d k :
  ds_rename nd ds = Ok d -> has k ds = false ->
  assoc k nd = None -> (forall k0 k1, assoc k0 nd = Some k1 -> k1 <> k) ->
  has k d = false.
Proof.
  intros Hr Hk Hkey Htgt. destruct (has k d) eqn:E; [|reflexivity].
  destruct (has_after_rename _ _ _ _ Hr E) as [k0 [Hk0 Hrn]].
  unfold rename_name in Hrn. destruct (assoc k0 nd) eqn:Ea.
  - exfalso. exact (Htgt _ _ Ea Hrn).
  - subst k0. congruence.
Qed.

(** A key of the renaming is absent afterwards when no key targets it. *)
Lemma key_absent_after_rename nd ds d k :
  ds_rename nd ds = Ok d -> (forall k0 k1, assoc k0 nd = Some k1 -> k1 <> k) ->
  (exists k', assoc k nd = Some k') -> has k d = false.
Proof.
  intros Hr Htgt [k' Hk']. destruct (has k d) eqn:E; [|reflexivity].
  destruct (has_after_rename _ _ _ _ Hr E) as [k0 [Hk0 Hrn]].
  unfold rename_name in Hrn. destruct (assoc k0 nd) eqn:Ea.
  - exfalso. exact (Htgt _ _ Ea Hrn).
  - subst k0. congruence.
Qed.

(** A name that occurred before the renaming occurs afterwards under its
    new name. *)
Lemma has_rename_image nd ds d k :
  ds_rename nd ds = Ok d -> has k ds = true -> has (rename_name nd k) d = true.
Proof.
  intros Hr Hk. destruct (ds_rename_ok _ _ _ Hr) as [Hc Hv].
  apply has_iff in Hk. apply has_iff. unfold present_in, variables in *.
  rewrite Hc, Hv. destruct Hk as [[n [v [Hin Hdim]]] | Hin].
  - left. exists (rename_name nd n), (rename_var_dims nd v). split.
    + rewrite <- map_app. apply in_map_iff. exists (n, v). split; [reflexivity | exact Hin].
    + unfold dim_names, rename_var_dims. simpl. rewrite map_map.
      apply in_map_iff in Hdim as [[d0 s0] [Hd0 Hin1]]. simpl in Hd0. subst d0.
      apply in_map_iff. exists (k, s0). split; [reflexivity | exact Hin1].
  - right. rewrite map_map. apply in_map_iff in Hin as [[n0 v0] [Heq Hin0]].
    simpl in Heq. subst n0. apply in_map_iff. exists (k, v0). split; [reflexivity | exact Hin0].
Qed.

Ltac solve_targets :=
  let k0 := fresh "k0" in let k1 := fresh "k1" in let H := fresh "H" in
  intros k0 k1; simpl;
  repeat match goal with
         | |- context [String.eqb k0 ?b] => destruct (String.eqb k0 b)
         end;
  intros H; try discriminate H; injection H as <-; discriminate.

(** Every Dataset returned by [fix_spatial_coord_names] has no [rlon], and
    does not have both [i] and [longitude]. *)
Lemma fix_spatial_output ds d :
  fix_spatial_coord_names ds = Ok d ->
  has "rlon" d = false /\ has "i" d && has "longitude" d = false.
Proof.
  unfold fix_spatial_coord_names, fix_spatial_coord_names_obj.
  destruct (has "rlon" ds && has "longitude" ds) eqn:C1.
  { destruct (ds_rename _ ds) as [d'|] eqn:R; simpl; intros H; [|discriminate].
    injection H as <-. split.
    - eapply key_absent_after_rename; [exact R | solve_targets | eexists; reflexivity].
    - rewrite (key_absent_after_rename _ _ _ "longitude" R); [apply andb_false_r | solve_targets | eexists; reflexivity]. }
  destruct (has "i" ds && has "longitude" ds) eqn:C2.
  { apply andb_true_iff in C2 as [Ci Clon]. rewrite Clon, andb_true_r in C1.
    destruct (ds_rename _ ds) as [d'|] eqn:R; simpl; intros H; [|discriminate].
    injection H as <-. split.
    - eapply absent_after_rename; [exact R | exact C1 | reflexivity | solve_targets].
    - rewrite (key_absent_after_rename _ _ _ "i" R); [reflexivity | solve_targets | eexists; reflexivity]. }
  destruct (has "rlon" ds) eqn:C3.
  { simpl in C1. destruct (ds_rename _ ds) as [d'|] eqn:R; simpl; intros H; [|discriminate].
    injection H as <-. split.
    - eapply key_absent_after_rename; [exact R | solve_targets | eexists; reflexivity].
    - rewrite (absent_after_rename _ _ _ "longitude" R C1); [apply andb_false_r | reflexivity | solve_targets]. }
  destruct (has "lon" ds) eqn:C4.
  { simpl. intros H. injection H as <-. split; [exact C3 | exact C2]. }
  destruct (in_dims "x" ds || in_coords "y" ds) eqn:C5.
  { destruct (ds_rename _ ds) as [d'|] eqn:R; simpl; intros H; [|discriminate].
    injection H as <-. split.
    - eapply absent_after_rename; [exact R | exact C3 | reflexivity | solve_targets].
    - destruct (has "i" ds) eqn:Ci.
      + simpl in C2. rewrite (absent_after_rename _ _ _ "longitude" R C2);
          [apply andb_false_r | reflexivity | solve_targets].
      + rewrite (absent_after_rename _ _ _ "i" R Ci); [reflexivity | reflexivity | solve_targets]. }
  destruct (has "longitude" ds) eqn:C6.
  { destruct (ds_rename _ ds) as [d'|] eqn:R; simpl; intros H; [|discriminate].
    injection H as <-. split.
    - eapply absent_after_rename; [exact R | exact C3 | reflexivity | solve_targets].
    - rewrite (key_absent_after_rename _ _ _ "longitude" R); [apply andb_false_r | solve_targets | eexists; reflexivity]. }
  discriminate.
Qed.

Lemma ds_rename_unfold nd ds :
  ds_rename nd ds =
  if forallb (fun '(k, _) => in_variables k ds || in_dims k ds) nd then
    rebuild (map (rn_entry nd) (coords ds)) (map (rn_entry nd) (data_vars ds))
  else Err ValueError.
Proof. reflexivity. Qed.

Lemma map_fst_rn_entry nd l : map fst (map (rn_entry nd) l) = map (rename_name nd) (map fst l).
Proof. rewrite !map_map. apply map_ext. intros [k v]. reflexivity. Qed.

(** ** C1 *)

(** Claim C1 (as amended).  [fix_spatial_coord_names] applies the renaming
    of case 1 (rlon, rlat, longitude, latitude to x, y, lon, lat) to every
    Dataset having an [rlon] and a [longitude] dimension or coordinate, and
    the renaming of case 2 (i, j, longitude, latitude) when case 1 does not
    apply but an [i] and a [longitude] are present, whatever else the
    Dataset holds.  The case-1 renaming succeeds when [rlat] and [latitude]
    are also present and no two variables end up under one name; then the
    variables are renamed one for one, and a Dataset whose coordinates are
    exactly rlon, rlat, longitude, latitude ends with exactly x, y, lon, lat. *)
Theorem fix_spatial_coord_names_combined_cases (ds : Dataset) :
  (has "rlon" ds && has "longitude" ds = true ->
     fix_spatial_coord_names ds = ds_rename rotated_renaming ds) /\
  (has "rlon" ds && has "longitude" ds = false -> has "i" ds && has "longitude" ds = true ->
     fix_spatial_coord_names ds = ds_rename index_renaming ds) /\
  (has "rlon" ds = true -> has "longitude" ds = true ->
   in_variables "rlat" ds || in_dims "rlat" ds = true ->
   in_variables "latitude" ds || in_dims "latitude" ds = true ->
   nodupb (map (rename_name rotated_renaming) (map fst (variables ds))) = true ->
   exists d, fix_spatial_coord_names ds = Ok d /\
     map fst (coords d) = map (rename_name rotated_renaming) (map fst (coords ds)) /\
     map fst (data_vars d) = map (rename_name rotated_renaming) (map fst (data_vars ds)) /\
     (map fst (coords ds) = ["rlon"; "rlat"; "longitude"; "latitude"] ->
      map fst (coords d) = ["x"; "y"; "lon"; "lat"])).
Proof.
  unfold fix_spatial_coord_names, fix_spatial_coord_names_obj.
  split; [|split].
  - intros H. rewrite H. unfold rotated_renaming.
    destruct (ds_rename _ ds); reflexivity.
  - intros H1 H2. rewrite H1, H2. unfold index_renaming.
    destruct (ds_rename _ ds); reflexivity.
  - intros Hrlon Hlon Hrlat Hlat Hnd. rewrite Hrlon, Hlon. simpl.
    pose proof (has_present _ _ Hrlon) as Prlon. pose proof (has_present _ _ Hlon) as Plon.
    change (ds_rename rotated_renaming ds) with (ds_rename rotated_renaming ds).
    rewrite ds_rename_unfold. simpl. rewrite Prlon, Hrlat, Plon, Hlat. simpl.
    unfold rebuild. rewrite map_app, !map_fst_rn_entry, <- map_app.
    unfold variables, rotated_renaming in *. rewrite map_app in Hnd. rewrite Hnd. simpl.
    eexists. split; [reflexivity|]. simpl. rewrite !map_fst_rn_entry.
    split; [reflexivity | split; [reflexivity|]].
    intros Hc. rewrite Hc. reflexivity.
Qed.

(** Witness for C1 on the rotated-pole Dataset. *)
Lemma fix_spatial_coord_names_combined_cases_witness :
  fix_spatial_coord_names rotated_ds = ds_rename rotated_renaming rotated_ds /\
  exists d, fix_spatial_coord_names rotated_ds = Ok d /\
    map fst (coords d) = ["x"; "y"; "lon"; "lat"].
Proof.
  destruct (fix_spatial_coord_names_combined_cases rotated_ds) as [Ha [_ Hc]].
  split; [apply Ha; reflexivity|].
  destruct (Hc eq_refl eq_refl eq_refl eq_refl eq_refl) as [d [Hd [_ [_ Hn]]]].
  exists d. split; [exact Hd | apply Hn; reflexivity].
Defined.

(** Counterexample to C1 as stated: a Dataset with [rlon] and [longitude]
    but no [rlat] is not renamed; [Dataset.rename] raises ValueError. *)
Lemma fix_spatial_coord_names_rlon_without_rlat :
  has "rlon" rlon_without_rlat_ds = true /\ has "longitude" rlon_without_rlat_ds = true /\
  fix_spatial_coord_names rlon_without_rlat_ds = Err ValueError.
Proof. vm_compute. repeat split. Qed.

(** ** C7 *)

(** Claim C7 (as amended).  Calling [fix_spatial_coord_names] again on one
    of its outputs [d]: when [d] has a [lon] dimension or coordinate (the
    outputs of cases 1, 2, 4, 5 and 6, and of case 3 when a [lon] was
    already there), [d] is returned unchanged.  Otherwise cases 1 to 4 do
    not apply to [d] and the call proceeds as cases 5 to 7: it renames x/y
    to lon/lat when [x] is a dimension or [y] a coordinate, renames
    longitude/latitude when a [longitude] is present, and raises
    NotImplementedError otherwise.  On an output of case 3 (an [rlon] and
    no [longitude]) no [longitude] is present. *)
Theorem fix_spatial_coord_names_second_call (ds d : Dataset) :
  fix_spatial_coord_names ds = Ok d ->
  (has "lon" d = true -> fix_spatial_coord_names d = Ok d) /\
  (has "lon" d = false ->
     fix_spatial_coord_names d =
       if in_dims "x" d || in_coords "y" d then ds_rename [("x", "lon"); ("y", "lat")] d
       else if has "longitude" d then ds_rename [("longitude", "lon"); ("latitude", "lat")] d
       else Err NotImplementedError) /\
  (has "rlon" ds = true -> has "longitude" ds = false -> has "longitude" d = false).
Proof.
  intros H. destruct (fix_spatial_output _ _ H) as [Hr Hi].
  split; [|split].
  - intros Hlon. unfold fix_spatial_coord_names, fix_spatial_coord_names_obj.
    rewrite Hr, Hi, Hlon. reflexivity.
  - intros Hlon. unfold fix_spatial_coord_names, fix_spatial_coord_names_obj.
    rewrite Hr, Hi, Hlon. cbn [andb rbind].
    destruct (in_dims "x" d || in_coords "y" d); [destruct (ds_rename _ d); reflexivity|].
    destruct (has "longitude" d); [destruct (ds_rename _ d); reflexivity | reflexivity].
  - intros Hrl Hlg. revert H. unfold fix_spatial_coord_names, fix_spatial_coord_names_obj.
    rewrite Hrl, Hlg. cbn [andb]. rewrite andb_false_r.
    destruct (ds_rename _ ds) as [d'|] eqn:R; cbn [rbind]; intros H; [|discriminate].
    injection H as <-. exact (absent_after_rename _ _ _ "longitude" R Hlg eq_refl ltac:(solve_targets)).
Qed.

(** Witness for C7: the rotated-pole Dataset (case 1), the rotated grid
    without geographic coordinates (case 3, then case 5) and a rotated
    longitude along a dimension [rlat] without a variable (case 3, then
    NotImplementedError). *)
Lemma fix_spatial_coord_names_second_call_witness :
  (exists d, fix_spatial_coord_names rotated_ds = Ok d /\ fix_spatial_coord_names d = Ok d) /\
  (exists d, fix_spatial_coord_names rotated_only_ds = Ok d /\
     fix_spatial_coord_names d = ds_rename [("x", "lon"); ("y", "lat")] d) /\
  (exists d, fix_spatial_coord_names rlon_on_rlat_ds = Ok d /\ has "longitude" d = false /\
     fix_spatial_coord_names d = Err NotImplementedError).
Proof.
  split; [|split].
  - destruct (fix_spatial_coord_names rotated_ds) as [d|e] eqn:E; [|vm_compute in E; discriminate E].
    destruct (fix_spatial_coord_names_second_call _ _ E) as (H1 & _ & _).
    exists d. split; [reflexivity|]. apply H1. vm_compute in E. injection E as <-. reflexivity.
  - destruct (fix_spatial_coord_names rotated_only_ds) as [d|e] eqn:E; [|vm_compute in E; discriminate E].
    destruct (fix_spatial_coord_names_second_call _ _ E) as (_ & H2 & _).
    exists d. split; [reflexivity|].
    assert (Hl : has "lon" d = false) by (vm_compute in E; injection E as <-; reflexivity).
    rewrite (H2 Hl). vm_compute in E. injection E as <-. reflexivity.
  - destruct (fix_spatial_coord_names rlon_on_rlat_ds) as [d|e] eqn:E; [|vm_compute in E; discriminate E].
    destruct (fix_spatial_coord_names_second_call _ _ E) as (_ & H2 & H3).
    exists d. split; [reflexivity|]. split; [exact (H3 eq_refl eq_refl)|].
    assert (Hl : has "lon" d = false) by (vm_compute in E; injection E as <-; reflexivity).
    rewrite (H2 Hl). vm_compute in E. injection E as <-. reflexivity.
Defined.

(** Counterexample to C7 as stated: case 3 turns rlon/rlat into x/y; on that
    output, case 5 renames x/y to lon/lat. *)
Lemma fix_spatial_coord_names_case3_not_idempotent :
  (let! d := fix_spatial_coord_names rotated_only_ds in fix_spatial_coord_names d)
  <> fix_spatial_coord_names rotated_only_ds.
Proof. vm_compute. discriminate. Qed.

(** ** The Longitude Normalizer *)

Lemma fix_360_longitudes_eq ds project :
  fix_360_longitudes ds project =
  let! upd := fix_360_rewrap ds (lon_name project) in
  let ds1 := default ds upd in
  if negb (str_contains "CERRA" project) then
    let! lat := getattr "lat" ds1 in
    if negb (Nat.eqb (List.length (vdims lat)) 2) then reindex_sorted ds1 (lon_name project)
    else Ok ds1
  else Ok ds1.
Proof.
  unfold fix_360_longitudes, call, fix_360_longitudes_h, lon_name, sbind, load, lift, store, alloc, sret.
  simpl. destruct (fix_360_rewrap ds _) as [[d|]|e]; simpl; [| |reflexivity];
  destruct (str_contains "CERRA" project); simpl; try reflexivity;
  destruct (getattr "lat" _) as [lat|e]; simpl; try reflexivity;
  destruct (negb _); simpl; try reflexivity;
  destruct (reindex_sorted _ _); reflexivity.
Qed.

Section QBounds.
Local Open Scope Q_scope.









End QBounds.

Lemma assoc_app {A} k (l1 l2 : list (string * A)) :
  assoc k (l1 ++ l2) = match assoc k l1 with Some a => Some a | None => assoc k l2 end.
Proof.
  induction l1 as [|[k' a] l1 IH]; simpl; [reflexivity|].
  destruct (String.eqb k k'); [reflexivity | exact IH].
Qed.

Lemma memb_assoc {A} k (l : list (string * A)) :
  memb k (map fst l) = true <-> exists a, assoc k l = Some a.
Proof.
  induction l as [|[k' a] l IH]; simpl.
  - split; [discriminate | intros [a H]; discriminate].
  - unfold memb in *. simpl. destruct (String.eqb k k') eqn:E; simpl.
    + split; [intros _; eexists; reflexivity | reflexivity].
    + exact IH.
Qed.

Lemma assoc_replace_in k v' l :
  assoc k (replace_in k v' l) = option_map (fun _ => v') (assoc k l).
Proof.
  induction l as [|[k' a] l IH]; simpl; [reflexivity|].
  destruct (String.eqb k k') eqn:E; simpl; rewrite E; [reflexivity | exact IH].
Qed.

Lemma memb_assoc_none {A} k (l : list (string * A)) :
  memb k (map fst l) = false -> assoc k l = None.
Proof.
  intros H. destruct (assoc k l) eqn:E; [|reflexivity].
  assert (memb k (map fst l) = true) by (apply memb_assoc; eauto). congruence.
Qed.



Lemma assoc_reindex k target perm l :
  assoc k (map (reindex_entry k target perm) l) =
  option_map (fun v => mkVar (vdims v) target (vattrs v)) (assoc k l).
Proof.
  induction l as [|[k' a] l IH]; simpl; [reflexivity|].
  destruct (String.eqb k k') eqn:E; simpl; [|exact IH].
  apply String.eqb_eq in E. subst k'. rewrite String.eqb_refl. reflexivity.
Qed.

Lemma reindex_sorted_ok ds k lon d :
  getitem k ds = Ok lon -> reindex_sorted ds k = Ok d ->
  exists n, vdims lon = [(k, n)] /\
    ((nodupQ (vdata lon) = true /\
      let target := py_sorted (vdata lon) in
      let perm := map (fun t => index_of t (vdata lon)) target in
      d = mkDs (if in_variables k ds then map (reindex_entry k target perm) (coords ds)
                else map (reindex_entry k target perm) (coords ds) ++
                       [(k, mkVar (vdims lon) target (vattrs lon))])
               (map (reindex_entry k target perm) (data_vars ds))) \/
     (nodupQ (vdata lon) = false /\ d = ds)).
Proof.
  unfold reindex_sorted. intros H Hd. rewrite H in Hd. cbn [rbind] in Hd.
  destruct (vdims lon) as [|[d0 n] [|p rest]] eqn:Ed; try discriminate.
  destruct (String.eqb_spec d0 k) as [<-|Hne]; cbn [negb] in Hd; [|discriminate].
  exists n. split; [reflexivity|].
  destruct (nodupQ (vdata lon)) eqn:Hnd.
  - injection Hd as <-. left. split; reflexivity.
  - destruct (qlist_eqb _ _); [|discriminate]. injection Hd as <-. right. auto.
Qed.

(** After the re-sort of distinct labels, the longitude coordinate holds the
    sorted labels. *)
Lemma getitem_reindex_sorted ds k lon d :
  getitem k ds = Ok lon -> reindex_sorted ds k = Ok d -> nodupQ (vdata lon) = true ->
  getitem k d = Ok (mkVar (vdims lon) (py_sorted (vdata lon)) (vattrs lon)).
Proof.
  intros H Hr Hnd. destruct (reindex_sorted_ok _ _ _ _ H Hr) as [n [_ [[_ ->] | [Hnd' _]]]];
    [|congruence].
  unfold getitem in *. unfold in_variables.
  destruct (memb k (map fst (variables ds))) eqn:Ei; unfold variables in *; cbn [coords data_vars].
  - rewrite <- map_app, assoc_reindex.
    apply memb_assoc in Ei as [a Ha]. rewrite Ha in H |- *. injection H as ->. reflexivity.
  - pose proof (memb_assoc_none _ _ Ei) as Ha. rewrite assoc_app in Ha.
    destruct (assoc k (coords ds)) eqn:Hc; [discriminate|].
    rewrite !assoc_app, assoc_reindex, Hc. simpl. rewrite String.eqb_refl. reflexivity.
Qed.


Section Longitudes.
Local Open Scope Q_scope.



(** ** C2 *)





End Longitudes.

(** ** C5 *)

Lemma getattr_getitem k ds v : getattr k ds = Ok v -> getitem k ds = Ok v.
Proof. unfold getattr. destruct (getitem k ds); congruence. Qed.

(** Claim C5 (as amended).  For a provider whose name does not contain
    "CERRA", a Dataset whose [lat] is not 2-D (here: lat and lon both 1-D,
    lon being a dimension coordinate) and whose longitudes are distinct after
    the rewrap, [fix_360_longitudes] re-sorts the Dataset along [lon]: the
    returned [lon] holds the rewrapped values sorted ascending, and every
    other variable is reordered along [lon] by the same permutation.  When
    the provider name contains "CERRA" or [lat] is 2-D, the rewrapped
    Dataset is returned without re-sorting. *)
Theorem fix_360_longitudes_resort (ds : Dataset) (project : string) (upd : option Dataset) :
  fix_360_rewrap ds (lon_name project) = Ok upd ->
  (str_contains "CERRA" project = false ->
   forall lat lon1 n, getattr "lat" (default ds upd) = Ok lat -> List.length (vdims lat) <> 2 ->
   getitem "lon" (default ds upd) = Ok lon1 -> vdims lon1 = [("lon", n)] ->
   nodupQ (vdata lon1) = true ->
   exists d lon', fix_360_longitudes ds project = Ok d /\ getitem "lon" d = Ok lon' /\
     vdata lon' = py_sorted (vdata lon1) /\ Sorted Qle (vdata lon') /\
     Permutation (vdata lon1) (vdata lon') /\
     (forall k v, In (k, v) (variables (default ds upd)) -> k <> "lon" ->
        In (k, permute_along "lon" (map (fun t => index_of t (vdata lon1)) (vdata lon')) v)
           (variables d))) /\
  (str_contains "CERRA" project = true \/
   (exists lat, getattr "lat" (default ds upd) = Ok lat /\ List.length (vdims lat) = 2) ->
   fix_360_longitudes ds project = Ok (default ds upd)).
Proof.
  intros Hu. split.
  - intros Hc lat lon1 n Hlat Hlen Hlon1 Hdims Hnd.
    assert (Hr : fix_360_longitudes ds project = reindex_sorted (default ds upd) "lon").
    { rewrite fix_360_longitudes_eq, Hu. simpl. unfold lon_name. rewrite Hc. simpl.
      rewrite Hlat. simpl. destruct (Nat.eqb_spec (List.length (vdims lat)) 2); [contradiction|].
      reflexivity. }
    assert (Hex : exists d, reindex_sorted (default ds upd) "lon" = Ok d).
    { unfold reindex_sorted. rewrite Hlon1. simpl. rewrite Hdims. simpl. rewrite Hnd.
      eexists. reflexivity. }
    destruct Hex as [d Hok].
    destruct (reindex_sorted_ok _ _ _ _ Hlon1 Hok) as [n' [_ [[_ Hd] | [Hnd' _]]]];
      [|congruence].
    cbv zeta in Hd.
    exists d. eexists. split; [rewrite Hr; exact Hok|].
    split; [exact (getitem_reindex_sorted _ _ _ _ Hlon1 Hok Hnd)|]. simpl.
    split; [reflexivity|]. split; [apply Sorted_merge_sort; intros x y; apply Qle_total|].
    split; [symmetry; apply merge_sort_Permutation|].
    intros k v Hin Hk.
    assert (Hre : forall l, In (k, v) l ->
      In (k, permute_along "lon" (map (fun t => index_of t (vdata lon1)) (py_sorted (vdata lon1))) v)
         (map (reindex_entry "lon" (py_sorted (vdata lon1))
                 (map (fun t => index_of t (vdata lon1)) (py_sorted (vdata lon1)))) l)).
    { intros l Hl. apply in_map_iff. exists (k, v). split; [|exact Hl]. simpl.
      destruct (String.eqb_spec k "lon"); [contradiction | reflexivity]. }
    rewrite Hd. unfold variables in *. cbn [coords data_vars].
    apply in_app_or in Hin as [Hin|Hin]; apply in_or_app.
    + left. destruct (in_variables _ _); [|apply in_or_app; left]; apply Hre; exact Hin.
    + right. apply Hre. exact Hin.
  - intros Hcase. rewrite fix_360_longitudes_eq, Hu. simpl.
    destruct Hcase as [Hc | [lat [Hlat Hlen]]].
    + rewrite Hc. reflexivity.
    + destruct (negb (str_contains "CERRA" project)); [|reflexivity].
      rewrite Hlat. simpl. rewrite Hlen. reflexivity.
Qed.

(** Witness for C5: [0, 90, 180, 270, 350] becomes [-90, -10, 0, 90, 180],
    and the data variable is reordered with it. *)
Lemma fix_360_longitudes_resort_witness :
  exists d lon', fix_360_longitudes lon_360_ds "ERA5" = Ok d /\ getitem "lon" d = Ok lon' /\
    vdata lon' = [-90; -10; 0; 90; 180]%Q /\
    getitem "t2m" d = Ok (mkVar [("lat", 1); ("lon", 5)] [4; 5; 1; 2; 3]%Q [("units", "K")]).
Proof.
  destruct (fix_360_rewrap lon_360_ds (lon_name "ERA5")) as [upd|e] eqn:Hu;
    [|vm_compute in Hu; discriminate Hu].
  assert (Hupd := Hu). vm_compute in Hupd. injection Hupd as <-.
  destruct (fix_360_longitudes_resort lon_360_ds "ERA5" _ Hu) as [H _].
  destruct (H eq_refl _ _ 5 eq_refl ltac:(discriminate) eq_refl eq_refl eq_refl)
    as [d [lon' [Hf [Hl [Hv _]]]]].
  exists d, lon'. split; [exact Hf | split; [exact Hl | split]].
  - rewrite Hv. vm_compute. reflexivity.
  - vm_compute in Hf. injection Hf as <-. vm_compute. reflexivity.
Defined.

(** Counterexample to C5 as stated: the provider "CERRA-Land" is not the
    exception provider "CERRA", yet its longitudes are rewrapped without
    being re-sorted, since the code tests whether "CERRA" occurs in the
    provider name. *)
Lemma fix_360_longitudes_cerra_substring :
  "CERRA-Land" <> "CERRA" /\
  (let! d := fix_360_longitudes cerra_land_ds "CERRA-Land" in getitem "longitude" d) =
    Ok (v1 "longitude" 3 [0; -90; 90]%Q) /\
  ~ Sorted Qle [0; -90; 90]%Q.
Proof.
  split; [discriminate | split; [vm_compute; reflexivity|]].
  intros Hs. inversion Hs as [|a l _ Hhd]. inversion Hhd as [|b l' Hle].
  apply Qle_bool_iff in Hle. discriminate Hle.
Qed.

(* ------------------------------------------------------------------ *)
(** ** convert_units, entry by entry *)

Lemma assoc_skip {A} k (l1 : list (string * A)) a l2 :
  ~ In k (map fst l1) -> assoc k (l1 ++ (k, a) :: l2) = Some a.
Proof.
  induction l1 as [|[k' b] l1 IH]; simpl; intros H.
  - rewrite String.eqb_refl. reflexivity.
  - destruct (String.eqb k k') eqn:E.
    + apply String.eqb_eq in E. subst. tauto.
    + apply IH. tauto.
Qed.

Lemma assoc_In {A} k (l : list (string * A)) a : assoc k l = Some a -> In (k, a) l.
Proof.
  induction l as [|[k' b] l IH]; simpl; [discriminate|].
  destruct (String.eqb k k') eqn:E; intros H.
  - apply String.eqb_eq in E. subst. injection H as ->. left. reflexivity.
  - right. apply IH, H.
Qed.

Lemma replace_in_notin k v l : ~ In k (map fst l) -> replace_in k v l = l.
Proof.
  induction l as [|[k' b] l IH]; simpl; intros H; [reflexivity|].
  destruct (String.eqb k k') eqn:E.
  - apply String.eqb_eq in E. subst. tauto.
  - f_equal. apply IH. tauto.
Qed.

Lemma convert_entry_name {keep_attrs : bool} n v p : convert_entry keep_attrs (n, v) = Ok p -> fst p = n.
Proof.
  unfold convert_entry, rbind.
  destruct (dict_get (vattrs v) "units") as [u|e]; [|discriminate].
  destruct (dict_get VALID_UNITS n) as [valid|e]; [|discriminate].
  destruct (String.eqb u valid); [intros H; injection H as <-; reflexivity|].
  destruct (dict_get UNIT_CONVERTER u) as [[[s o] t]|e]; [|discriminate].
  intros H; injection H as <-; reflexivity.
Qed.

Lemma convert_entry_keyerror {keep_attrs : bool} p e : convert_entry keep_attrs p = Err e -> exists k, e = KeyError k.
Proof.
  destruct p as [n v]. unfold convert_entry, rbind, dict_get.
  destruct (assoc "units" (vattrs v)) as [u|]; [|intros H; injection H as <-; eauto].
  destruct (assoc n VALID_UNITS) as [valid|]; [|intros H; injection H as <-; eauto].
  destruct (String.eqb u valid); [discriminate|].
  destruct (assoc u UNIT_CONVERTER) as [[[s o] t]|]; [discriminate|].
  intros H; injection H as <-; eauto.
Qed.

(** When an entry raises. *)
Lemma convert_entry_err {keep_attrs : bool} n v :
  (exists e, convert_entry keep_attrs (n, v) = Err e) <->
  (assoc "units" (vattrs v) = None \/ assoc n VALID_UNITS = None \/
   exists u valid, assoc "units" (vattrs v) = Some u /\ assoc n VALID_UNITS = Some valid /\
     u <> valid /\ assoc u UNIT_CONVERTER = None).
Proof.
  unfold convert_entry, rbind, dict_get.
  destruct (assoc "units" (vattrs v)) as [u|]; [|split; [left; reflexivity | eauto]].
  destruct (assoc n VALID_UNITS) as [valid|]; [|split; [right; left; reflexivity | eauto]].
  destruct (String.eqb u valid) eqn:E.
  - apply String.eqb_eq in E. subst. split.
    + intros [e H]; discriminate.
    + intros [H|[H|(u & w & H1 & H2 & H3 & _)]]; try discriminate.
      injection H1 as <-. injection H2 as <-. tauto.
  - apply String.eqb_neq in E.
    destruct (assoc u UNIT_CONVERTER) as [[[s o] t]|] eqn:Ec; split.
    + intros [e H]; discriminate.
    + intros [H|[H|(u' & w & H1 & H2 & H3 & H4)]]; try discriminate.
      injection H1 as <-. rewrite Ec in H4. discriminate.
    + intros _. right; right. exists u, valid. auto.
    + eauto.
Qed.

(** One iteration on a Dataset whose names are unique, with [n] a data
    variable: the loop body acts on the entry of [n] alone. *)
Lemma convert_var_entry {keep_attrs : bool} cs pre n v suf p :
  ~ In n (map fst cs ++ map fst pre ++ map fst suf) ->
  convert_entry keep_attrs (n, v) = Ok p ->
  convert_var keep_attrs n (mkDs cs (pre ++ (n, v) :: suf)) = Ok (mkDs cs (pre ++ p :: suf)).
Proof.
  intros Hn Hp.
  assert (Hget : getitem n (mkDs cs (pre ++ (n, v) :: suf)) = Ok v).
  { unfold getitem, variables. simpl. rewrite app_assoc, assoc_skip; [reflexivity|].
    rewrite map_app. intros H. apply Hn. apply in_app_or in H as [H|H]; apply in_or_app; auto.
    right. apply in_or_app. auto. }
  unfold convert_var. rewrite Hget. simpl (rbind (Ok v) _).
  revert Hp. unfold convert_entry.
  destruct (dict_get (vattrs v) "units") as [u|e]; simpl; [|discriminate].
  destruct (dict_get VALID_UNITS n) as [valid|e]; simpl; [|discriminate].
  destruct (String.eqb u valid); [intros H; injection H as <-; reflexivity|].
  destruct (dict_get UNIT_CONVERTER u) as [[[s o] t]|e]; simpl; [|discriminate].
  intros H; injection H as <-. f_equal.
  unfold setitem, in_coords. simpl.
  rewrite (proj2 (memb_false _ _)) by (intros H; apply Hn; apply in_or_app; auto).
  rewrite (proj2 (memb_true _ _)) by (rewrite map_app; apply in_or_app; right; left; reflexivity).
  f_equal. unfold replace_in. rewrite map_app. simpl. rewrite String.eqb_refl.
  fold (replace_in n (converted keep_attrs v s o t) pre).
  fold (replace_in n (converted keep_attrs v s o t) suf).
  rewrite !replace_in_notin; [reflexivity| |];
    intros H; apply Hn; rewrite !in_app_iff; auto.
Qed.

Lemma convert_loop_entries {keep_attrs : bool} cs pre suf :
  NoDup (map fst (cs ++ pre ++ suf)) ->
  convert_loop keep_attrs (map fst suf) (mkDs cs (pre ++ suf)) =
  (fst (convert_entries keep_attrs suf), mkDs cs (pre ++ snd (convert_entries keep_attrs suf))).
Proof.
  revert pre. induction suf as [|[n v] suf IH]; intros pre Hnd; cbn [map fst snd convert_loop convert_entries].
  - rewrite app_nil_r. reflexivity.
  - assert (Hn : ~ In n (map fst cs ++ map fst pre ++ map fst suf)).
    { rewrite !map_app in Hnd. simpl in Hnd. rewrite app_assoc in Hnd |- *.
      apply NoDup_ListNoDup, NoDup_remove_2 in Hnd. exact Hnd. }
    destruct (convert_entry keep_attrs (n, v)) as [p|e] eqn:Ep.
    + rewrite (convert_var_entry cs pre n v suf p Hn Ep).
      assert (Hp : fst p = n) by exact (convert_entry_name n v p Ep).
      replace (pre ++ p :: suf)%list with ((pre ++ [p]) ++ suf)%list by (rewrite <- app_assoc; reflexivity).
      rewrite IH.
      * destruct (convert_entries keep_attrs suf) as [r l]. simpl. rewrite <- app_assoc. reflexivity.
      * revert Hnd. rewrite !map_app. simpl. rewrite <- app_assoc, Hp. exact (fun H => H).
    + unfold convert_var.
      assert (Hget : getitem n (mkDs cs (pre ++ (n, v) :: suf)) = Ok v).
      { unfold getitem, variables. simpl. rewrite app_assoc, assoc_skip; [reflexivity|].
        rewrite map_app. intros H. apply Hn. apply in_app_or in H as [H|H]; apply in_or_app; auto.
        right. apply in_or_app. auto. }
      rewrite Hget. simpl (rbind (Ok v) _). revert Ep. unfold convert_entry.
      destruct (dict_get (vattrs v) "units") as [u|e']; simpl; [|intros H; injection H as <-; reflexivity].
      destruct (dict_get VALID_UNITS n) as [valid|e']; simpl; [|intros H; injection H as <-; reflexivity].
      destruct (String.eqb u valid); [discriminate|].
      destruct (dict_get UNIT_CONVERTER u) as [[[s o] t]|e']; simpl; [discriminate|].
      intros H; injection H as <-; reflexivity.
Qed.

Lemma convert_units_call {keep_attrs : bool} ds :
  names_unique ds ->
  call (convert_units_h keep_attrs) ds =
  (match fst (convert_entries keep_attrs (data_vars ds)) with
   | Ok _ => Ok (mkDs (coords ds) (snd (convert_entries keep_attrs (data_vars ds))))
   | Err e => Err e
   end,
   mkDs (coords ds) (snd (convert_entries keep_attrs (data_vars ds)))).
Proof.
  intros Hu. destruct ds as [cs dv]. unfold names_unique, variables in Hu. simpl in *.
  pose proof (convert_loop_entries (keep_attrs:=keep_attrs) cs [] dv Hu) as H. simpl in H.
  unfold call, convert_units_h, sbind, load, lift, store, sret. simpl.
  rewrite H. destruct (fst (convert_entries keep_attrs dv)); reflexivity.
Qed.

Lemma convert_entries_err {keep_attrs : bool} l :
  (exists e, fst (convert_entries keep_attrs l) = Err e) <->
  exists p, In p l /\ exists e, convert_entry keep_attrs p = Err e.
Proof.
  induction l as [|p l IH]; simpl.
  - split; [intros [e H]; discriminate | intros (p & [] & _)].
  - destruct (convert_entry keep_attrs p) as [p'|e] eqn:Ep.
    + destruct (convert_entries keep_attrs l) as [r l''] eqn:El. simpl in *. rewrite IH. split.
      * intros (q & Hq & He). eauto.
      * intros (q & [<-|Hq] & e & He); [congruence | eauto].
    + simpl. split; [intros _; eauto | intros _; eauto].
Qed.

Lemma convert_entries_keyerror {keep_attrs : bool} l e : fst (convert_entries keep_attrs l) = Err e -> exists k, e = KeyError k.
Proof.
  induction l as [|p l IH]; simpl; [discriminate|].
  destruct (convert_entry keep_attrs p) as [p'|e'] eqn:Ep.
  - destruct (convert_entries keep_attrs l) as [r l'']. simpl. exact IH.
  - simpl. intros H; injection H as <-. exact (convert_entry_keyerror p e' Ep).
Qed.

Lemma convert_entries_names {keep_attrs : bool} l : map fst (snd (convert_entries keep_attrs l)) = map fst l.
Proof.
  induction l as [|[n v] l IH]; simpl; [reflexivity|].
  destruct (convert_entry keep_attrs (n, v)) as [p'|e] eqn:Ep; [|reflexivity].
  destruct (convert_entries keep_attrs l) as [r l'']. simpl in *.
  rewrite IH, (convert_entry_name n v p' Ep). reflexivity.
Qed.

(** The loop runs over the entries [pre] that convert, and stops at the
    first entry [(n, v)] that raises. *)
Lemma convert_entries_stop {keep_attrs : bool} pre n v rest e :
  Forall (fun p => exists p', convert_entry keep_attrs p = Ok p') pre ->
  convert_entry keep_attrs (n, v) = Err e ->
  convert_entries keep_attrs (pre ++ (n, v) :: rest)%list = (Err e, (snd (convert_entries keep_attrs pre) ++ (n, v) :: rest)%list).
Proof.
  intros Hpre He. induction Hpre as [|p pre [p' Hp] Hpre IH]; simpl.
  - rewrite He. reflexivity.
  - rewrite Hp, IH. destruct (convert_entries keep_attrs pre). reflexivity.
Qed.

(** Every unit the table converts to is either ["W m-2"] (only reached
    from ["W m**-2"]) or itself a key of the table, converted by the
    identity. *)
Lemma UNIT_CONVERTER_targets u s o t :
  assoc u UNIT_CONVERTER = Some (s, o, t) ->
  (u = "W m**-2" /\ t = "W m-2") \/ assoc t UNIT_CONVERTER = Some (1%Q, 0%Q, t).
Proof.
  intros H. apply assoc_In in H. unfold UNIT_CONVERTER in H.
  repeat (destruct H as [H|H];
          [injection H as <- <- <- <-; first [right; reflexivity | left; split; reflexivity] |]).
  destruct H.
Qed.

Lemma Q_mul_1_add_0 (x : Q) : (x * 1 + 0)%Q = x.
Proof.
  destruct x as [a b]. unfold Qmult, Qplus. cbn [Qnum Qden].
  rewrite !Z.mul_1_r, !Pos.mul_1_r, Z.mul_0_l, Z.add_0_r. reflexivity.
Qed.

Definition set_attr_map (k x : string) (attrs : list (string * string)) :=
  map (fun '(k', y) => if String.eqb k k' then (k', x) else (k', y)) attrs.

Lemma set_attr_map_fst k x a : map fst (set_attr_map k x a) = map fst a.
Proof.
  induction a as [|[k' y] a IH]; simpl; [reflexivity|].
  destruct (String.eqb k k'); simpl; f_equal; exact IH.
Qed.

Lemma set_attr_map_assoc k x a : assoc k (set_attr_map k x a) = option_map (fun _ => x) (assoc k a).
Proof.
  induction a as [|[k' y] a IH]; simpl; [reflexivity|].
  destruct (String.eqb k k') eqn:E; simpl; rewrite E; [reflexivity | exact IH].
Qed.

Lemma set_attr_map_idem k x a : set_attr_map k x (set_attr_map k x a) = set_attr_map k x a.
Proof.
  induction a as [|[k' y] a IH]; simpl; [reflexivity|].
  destruct (String.eqb k k') eqn:E; simpl; rewrite E; f_equal; exact IH.
Qed.

Lemma set_attr_map_notin k x a : memb k (map fst a) = false -> set_attr_map k x a = a.
Proof.
  intros H. apply memb_false in H. induction a as [|[k' y] a IH]; simpl; [reflexivity|].
  simpl in H. destruct (String.eqb_spec k k'); [subst; tauto|].
  f_equal. apply IH. tauto.
Qed.

Lemma set_attr_eq k x a :
  set_attr k x a = if memb k (map fst a) then set_attr_map k x a else (a ++ [(k, x)])%list.
Proof. reflexivity. Qed.

(** [attrs["units"] = t] reads back [t]. *)
Lemma set_attr_lookup k x a : assoc k (set_attr k x a) = Some x.
Proof.
  rewrite set_attr_eq. destruct (memb k (map fst a)) eqn:E.
  - rewrite set_attr_map_assoc. apply memb_assoc in E as [y ->]. reflexivity.
  - rewrite assoc_app, (memb_assoc_none _ _ E). simpl. rewrite String.eqb_refl. reflexivity.
Qed.

Lemma set_attr_idem k x a : set_attr k x (set_attr k x a) = set_attr k x a.
Proof.
  rewrite (set_attr_eq k x a). destruct (memb k (map fst a)) eqn:E.
  - rewrite set_attr_eq, set_attr_map_fst, E. apply set_attr_map_idem.
  - rewrite set_attr_eq, map_app.
    assert (Hm : memb k (map fst a ++ map fst [(k, x)]) = true)
      by (apply memb_true; apply in_or_app; right; left; reflexivity).
    rewrite Hm. unfold set_attr_map. rewrite map_app. fold (set_attr_map k x a).
    rewrite set_attr_map_notin by exact E. simpl. rewrite String.eqb_refl. reflexivity.
Qed.

Lemma converted_units {keep_attrs : bool} v s o t :
  assoc "units" (vattrs (converted keep_attrs v s o t)) = Some t.
Proof. apply set_attr_lookup. Qed.

(** Converting an already converted variable by the identity factor of its
    target unit gives it back. *)
Lemma converted_twice {keep_attrs : bool} v s o t :
  converted keep_attrs (converted keep_attrs v s o t) 1 0 t = converted keep_attrs v s o t.
Proof.
  unfold converted at 1. cbn [vdims vdata vattrs]. unfold converted. cbn [vdims vdata vattrs].
  f_equal.
  - rewrite map_map. apply map_ext. intros x. apply Q_mul_1_add_0.
  - destruct keep_attrs; [apply set_attr_idem | reflexivity].
Qed.

(** An entry the loop has converted is left alone by a second pass, unless
    it went from ["W m**-2"] to ["W m-2"] under a name that expects another
    unit. *)
Lemma convert_entry_twice {keep_attrs : bool} n v p :
  convert_entry keep_attrs (n, v) = Ok p ->
  (assoc "units" (vattrs v) = Some "W m**-2" -> assoc n VALID_UNITS = Some "W m-2") ->
  convert_entry keep_attrs p = Ok p.
Proof.
  intros Hp Hw. revert Hp. unfold convert_entry, rbind, dict_get.
  destruct (assoc "units" (vattrs v)) as [u|] eqn:Eu; [|discriminate].
  destruct (assoc n VALID_UNITS) as [valid|] eqn:Ev; [|discriminate].
  destruct (String.eqb u valid) eqn:E.
  - intros H; injection H as <-. rewrite Eu, Ev, E. reflexivity.
  - destruct (assoc u UNIT_CONVERTER) as [[[s o] t]|] eqn:Ec; [|discriminate].
    intros H; injection H as <-.
    rewrite converted_units, Ev. cbn [rbind].
    destruct (String.eqb t valid) eqn:Et; [reflexivity|].
    destruct (UNIT_CONVERTER_targets u s o t Ec) as [[-> ->]|Ht].
    + pose proof (Hw eq_refl) as Hv. injection Hv as ->.
      rewrite String.eqb_refl in Et. discriminate.
    + rewrite Ht. cbn [rbind]. rewrite converted_twice. reflexivity.
Qed.

Lemma convert_entries_twice {keep_attrs : bool} l :
  fst (convert_entries keep_attrs l) = Ok tt ->
  (forall n v, In (n, v) l ->
     assoc "units" (vattrs v) = Some "W m**-2" -> assoc n VALID_UNITS = Some "W m-2") ->
  convert_entries keep_attrs (snd (convert_entries keep_attrs l)) = (Ok tt, snd (convert_entries keep_attrs l)).
Proof.
  induction l as [|[n v] l IH]; simpl; intros Hok Hw; [reflexivity|].
  destruct (convert_entry keep_attrs (n, v)) as [p|e] eqn:Ep; [|discriminate].
  destruct (convert_entries keep_attrs l) as [r l''] eqn:El. simpl in *.
  rewrite (convert_entry_twice n v p Ep (Hw n v (or_introl eq_refl))).
  rewrite IH; [reflexivity | exact Hok |].
  intros n' v' Hin. apply Hw. right. exact Hin.
Qed.

Ltac unique_names := unfold names_unique; apply (bool_decide_unpack _); vm_compute; reflexivity.

(** C3 (corrected).  On a Dataset with unique names, [convert_units] raises
    if and only if some data variable has no ["units"] attribute, has a
    name missing from the table of expected units, or has units that differ
    from the expected ones and are missing from the conversion table; the
    exception is always a KeyError.  The loop stops at the first such data
    variable, and the data variables before it have already been converted
    in place: the argument object is left with those converted entries, so
    it is unmodified only when the first data variable raises. *)
Theorem convert_units_failure {keep_attrs : bool} (ds : Dataset) :
  names_unique ds ->
  ((exists e, convert_units keep_attrs ds = Err e) <->
   exists n v, In (n, v) (data_vars ds) /\
     (assoc "units" (vattrs v) = None \/ assoc n VALID_UNITS = None \/
      exists u valid, assoc "units" (vattrs v) = Some u /\ assoc n VALID_UNITS = Some valid /\
        u <> valid /\ assoc u UNIT_CONVERTER = None)) /\
  (forall e, convert_units keep_attrs ds = Err e -> exists k, e = KeyError k) /\
  (forall pre n v rest e,
     data_vars ds = (pre ++ (n, v) :: rest)%list ->
     Forall (fun p => exists p', convert_entry keep_attrs p = Ok p') pre ->
     convert_entry keep_attrs (n, v) = Err e ->
     convert_units keep_attrs ds = Err e /\
     snd (call (convert_units_h keep_attrs) ds) =
       mkDs (coords ds) (snd (convert_entries keep_attrs pre) ++ (n, v) :: rest)%list).
Proof.
  intros Hu. unfold convert_units. rewrite (convert_units_call ds Hu). cbn [fst snd].
  split; [|split].
  - split.
    + intros [e He]. destruct (fst (convert_entries keep_attrs (data_vars ds))) as [[]|e'] eqn:E; [discriminate|].
      destruct (proj1 (convert_entries_err _) (ex_intro _ e' E)) as ([n v] & Hin & He').
      exists n, v. split; [exact Hin|]. apply (convert_entry_err (keep_attrs:=keep_attrs)). exact He'.
    + intros (n & v & Hin & Hc). apply (convert_entry_err (keep_attrs:=keep_attrs)) in Hc.
      destruct (proj2 (convert_entries_err (data_vars ds)) (ex_intro _ (n, v) (conj Hin Hc))) as [e He].
      rewrite He. eauto.
  - intros e. destruct (fst (convert_entries keep_attrs (data_vars ds))) as [[]|e'] eqn:E; [discriminate|].
    intros H; injection H as <-. exact (convert_entries_keyerror _ _ E).
  - intros pre n v rest e Hdv Hpre He. rewrite Hdv, (convert_entries_stop pre n v rest e Hpre He).
    split; reflexivity.
Qed.

(** [tas] in K is converted in place before [pr] raises. *)
Lemma convert_units_failure_witness :
  convert_units true furlong_ds = Err (KeyError "furlongs-per-fortnight") /\
  snd (call (convert_units_h true) furlong_ds) =
    mkDs [] [("tas", mkVar [("time", 1%nat)] [2685 # 100] [("units", "Celsius")]);
             ("pr", mkVar [("time", 1%nat)] [1%Q] [("units", "furlongs-per-fortnight")])].
Proof.
  assert (Hu : names_unique furlong_ds) by unique_names.
  destruct (convert_units_failure (keep_attrs:=true) furlong_ds Hu) as (_ & _ & H).
  apply (H [("tas", mkVar [("time", 1%nat)] [300%Q] [("units", "K")])] "pr"
           (mkVar [("time", 1%nat)] [1%Q] [("units", "furlongs-per-fortnight")]) []).
  - reflexivity.
  - constructor; [eexists; reflexivity | constructor].
  - reflexivity.
Defined.

(** Refutes the claim as stated: an unknown unit on [pr] makes
    [convert_units] raise, but the argument object has already been
    modified ([tas] converted to Celsius); and a data variable without
    ["units"] makes it raise although its name and units are not missing
    from either table. *)
Lemma convert_units_partial_mutation :
  convert_units true furlong_ds = Err (KeyError "furlongs-per-fortnight") /\
  snd (call (convert_units_h true) furlong_ds) <> furlong_ds /\
  convert_units true no_units_ds = Err (KeyError "units").
Proof.
  split; [vm_compute; reflexivity|]. split; [|vm_compute; reflexivity].
  vm_compute. intros H. inversion H.
Qed.

(** C10 (confirmed).  On a Dataset with unique names, a data variable
    [(n, v)] without a ["units"] attribute makes [convert_units] raise a
    KeyError, whatever its values; when the data variables before it
    convert, the error is the lookup of ["units"] itself. *)
Theorem convert_units_requires_units {keep_attrs : bool} (ds : Dataset) (n : string) (v : variable) :
  names_unique ds -> In (n, v) (data_vars ds) -> assoc "units" (vattrs v) = None ->
  (exists k, convert_units keep_attrs ds = Err (KeyError k)) /\
  (forall pre rest, data_vars ds = (pre ++ (n, v) :: rest)%list ->
     Forall (fun p => exists p', convert_entry keep_attrs p = Ok p') pre ->
     convert_units keep_attrs ds = Err (KeyError "units")).
Proof.
  intros Hu Hin Hn.
  assert (He : convert_entry keep_attrs (n, v) = Err (KeyError "units")).
  { unfold convert_entry, rbind, dict_get. rewrite Hn. reflexivity. }
  unfold convert_units. rewrite (convert_units_call ds Hu). cbn [fst]. split.
  - destruct (proj2 (convert_entries_err (data_vars ds)) (ex_intro _ (n, v) (conj Hin (ex_intro _ _ He))))
      as [e E].
    rewrite E. destruct (convert_entries_keyerror _ _ E) as [k ->]. eauto.
  - intros pre rest Hdv Hpre. rewrite Hdv, (convert_entries_stop pre n v rest _ Hpre He).
    reflexivity.
Qed.

Lemma convert_units_requires_units_witness :
  convert_units true no_units_ds = Err (KeyError "units").
Proof.
  assert (Hu : names_unique no_units_ds) by unique_names.
  apply (proj2 (convert_units_requires_units no_units_ds "pr" (mkVar [("time", 1%nat)] [3%Q] []) Hu
                  (or_intror (or_introl eq_refl)) eq_refl)
           [("tas", mkVar [("time", 1%nat)] [20%Q] [("units", "Celsius")])] []).
  - reflexivity.
  - constructor; [eexists; reflexivity | constructor].
Defined.

(** C6 (corrected).  On a Dataset with unique names where every data
    variable recorded in ["W m**-2"] is one whose expected unit is
    ["W m-2"], a second [convert_units] on the result of a successful one
    succeeds and returns it unchanged. *)
Theorem convert_units_idempotent {keep_attrs : bool} (ds d : Dataset) :
  names_unique ds -> convert_units keep_attrs ds = Ok d ->
  (forall n v, In (n, v) (data_vars ds) ->
     assoc "units" (vattrs v) = Some "W m**-2" -> assoc n VALID_UNITS = Some "W m-2") ->
  convert_units keep_attrs d = Ok d.
Proof.
  intros Hu Hd Hw. unfold convert_units in *. rewrite (convert_units_call ds Hu) in Hd.
  cbn [fst] in Hd.
  destruct (fst (convert_entries keep_attrs (data_vars ds))) as [[]|e] eqn:E; [|discriminate].
  injection Hd as <-.
  assert (Hu' : names_unique (mkDs (coords ds) (snd (convert_entries keep_attrs (data_vars ds))))).
  { unfold names_unique, variables in *. cbn [coords data_vars].
    rewrite map_app, convert_entries_names, <- map_app. exact Hu. }
  rewrite (convert_units_call _ Hu'). cbn [fst data_vars coords].
  rewrite (convert_entries_twice _ E Hw). reflexivity.
Qed.

Lemma convert_units_idempotent_witness :
  exists d, convert_units true rsds_ds = Ok d /\ convert_units true d = Ok d.
Proof.
  exists (match convert_units true rsds_ds with Ok d => d | Err _ => rsds_ds end).
  assert (Hd : convert_units true rsds_ds = Ok (match convert_units true rsds_ds with Ok d => d | Err _ => rsds_ds end))
    by (vm_compute; reflexivity).
  split; [exact Hd|].
  apply (convert_units_idempotent rsds_ds _); [unique_names | exact Hd |].
  intros n v Hin Hw. destruct Hin as [H|[H|[H|[]]]]; injection H as <- <-;
    first [reflexivity | vm_compute in Hw; discriminate].
Defined.

(** Refutes the claim as stated: [tas] recorded in ["W m**-2"] is
    converted to ["W m-2"], which the conversion table does not know, so a
    second pass raises. *)
Lemma convert_units_flux_as_tas :
  exists d, convert_units true flux_as_tas_ds = Ok d /\ convert_units true d = Err (KeyError "W m-2").
Proof.
  exists (match convert_units true flux_as_tas_ds with Ok d => d | Err _ => flux_as_tas_ds end).
  split; vm_compute; reflexivity.
Qed.

(* ------------------------------------------------------------------ *)
(** ** rename_and_delete_variables, stage by stage *)

Lemma rename_single k a b : rename_name [(a, b)] k = if String.eqb k a then b else k.
Proof. unfold rename_name. simpl. destruct (String.eqb k a); reflexivity. Qed.

Lemma nodupb_NoDup l : nodupb l = true <-> NoDup l.
Proof.
  induction l as [|x l IH]; simpl.
  - split; [intros _; constructor | reflexivity].
  - rewrite andb_true_iff, negb_true_iff, memb_false, IH, NoDup_cons, list_elem_of_In. tauto.
Qed.


Lemma NoDup_fst_In {A} (l : list (string * A)) k w1 w2 :
  NoDup (map fst l) -> In (k, w1) l -> In (k, w2) l -> w1 = w2.
Proof.
  intros Hnd. apply NoDup_ListNoDup in Hnd. induction l as [|[k' w] l IH]; simpl; [tauto|].
  inversion Hnd as [|? ? Hk Hnd']; subst.
  intros [H1|H1] [H2|H2].
  - congruence.
  - inversion H1; subst. exfalso. apply Hk. exact (in_map fst l (k, w2) H2).
  - inversion H2; subst. exfalso. apply Hk. exact (in_map fst l (k, w1) H1).
  - exact (IH Hnd' H1 H2).
Qed.


Lemma assoc_unique {A} k (x : A) l :
  (exists w, In (k, w) l) -> (forall w, In (k, w) l -> w = x) -> assoc k l = Some x.
Proof.
  induction l as [|[k' w] l IH]; simpl; intros [w0 Hw0] Hall; [destruct Hw0|].
  destruct (String.eqb_spec k k') as [<-|Hne].
  - f_equal. apply Hall. left. reflexivity.
  - apply IH.
    + destruct Hw0 as [H|H]; [inversion H; congruence | eauto].
    + intros w' H. apply Hall. right. exact H.
Qed.

Lemma assoc_none {A} k (l : list (string * A)) : (forall w, ~ In (k, w) l) -> assoc k l = None.
Proof.
  induction l as [|[k' w] l IH]; simpl; intros Hn; [reflexivity|].
  destruct (String.eqb_spec k k') as [<-|Hne].
  - exfalso. apply (Hn w). left. reflexivity.
  - apply IH. intros w' H. apply (Hn w'). right. exact H.
Qed.

Lemma In_replace_in k x k' w l :
  In (k', w) (replace_in k x l) -> (k' = k /\ w = x) \/ (k' <> k /\ In (k', w) l).
Proof.
  unfold replace_in. intros H. apply in_map_iff in H as ([k0 w0] & Hk & Hin).
  destruct (String.eqb_spec k k0) as [<-|Hne]; inversion Hk; subst; [left; auto | right; auto].
Qed.

Lemma replace_in_In k x w l : In (k, w) l -> In (k, x) (replace_in k x l).
Proof.
  unfold replace_in. intros H. apply in_map_iff. exists (k, w). split; [|exact H].
  simpl. rewrite String.eqb_refl. reflexivity.
Qed.

Lemma count_str_pos k l : In k l <-> (0 < count_str k l)%nat.
Proof.
  unfold count_str. induction l as [|a l IH]; cbn [List.filter List.length In]; [split; [tauto | lia]|].
  destruct (String.eqb_spec k a) as [<-|Hne]; cbn [List.length].
  - split; [intros _; lia | intros _; left; reflexivity].
  - rewrite <- IH. split; [intros [H|H]; [congruence | exact H] | auto].
Qed.

Lemma same_sorted_In l1 l2 k : same_sorted l1 l2 = true -> In k l1 -> In k l2.
Proof.
  unfold same_sorted. intros Hs Hk. rewrite forallb_forall in Hs.
  specialize (Hs k (in_or_app _ _ _ (or_introl Hk))). apply Nat.eqb_eq in Hs.
  apply count_str_pos. rewrite <- Hs. apply count_str_pos. exact Hk.
Qed.

Lemma in_variables_In k ds : in_variables k ds = true <-> In k (map fst (variables ds)).
Proof. unfold in_variables. apply memb_true. Qed.


(** [ds.assign_coords({"height": 2.0})]: where the variables end up. *)
Lemma assign_coord_coords k x ds k' w :
  In (k', w) (coords (assign_coord k x ds)) ->
  (k' = k /\ w = x) \/ (k' <> k /\ In (k', w) (coords ds)).
Proof.
  unfold assign_coord, in_coords. cbn [coords].
  destruct (memb k (map fst (coords ds))) eqn:E.
  - apply In_replace_in.
  - intros H. apply in_app_or in H as [H|[H|[]]].
    + right. split; [|exact H]. intros ->. apply memb_false in E. apply E.
      exact (in_map fst _ (_, w) H).
    + inversion H; subst. left. auto.
Qed.

Lemma assign_coord_has k x ds : In (k, x) (coords (assign_coord k x ds)).
Proof.
  unfold assign_coord, in_coords. cbn [coords].
  destruct (memb k (map fst (coords ds))) eqn:E.
  - apply memb_true, in_map_iff in E as ([k0 w] & Hk & Hin). cbn in Hk. subst k0.
    exact (replace_in_In k x w _ Hin).
  - apply in_or_app. right. left. reflexivity.
Qed.

Lemma assign_coord_data_vars k x ds k' w :
  In (k', w) (data_vars (assign_coord k x ds)) <-> k' <> k /\ In (k', w) (data_vars ds).
Proof.
  unfold assign_coord. cbn [data_vars]. rewrite filter_In.
  split; intros [H1 H2].
  - split; [|exact H1]. intros ->. rewrite String.eqb_refl in H2. discriminate.
  - split; [exact H2|]. apply String.eqb_neq in H1. rewrite String.eqb_sym, H1. reflexivity.
Qed.



Lemma rename_vars_unique nd ds d : rename_vars nd ds = Ok d -> names_unique d.
Proof.
  unfold rename_vars, rebuild.
  destruct (forallb _ nd); [|discriminate].
  destruct (nodupb _) eqn:E; [|discriminate].
  intros H. injection H as <-. apply nodupb_NoDup. exact E.
Qed.

Lemma rename_vars_err nd ds e : rename_vars nd ds = Err e -> e = ValueError.
Proof.
  unfold rename_vars, rebuild.
  destruct (forallb _ nd); [|intros H; injection H as <-; reflexivity].
  destruct (nodupb _); [discriminate | intros H; injection H as <-; reflexivity].
Qed.

Lemma drop_vars_err names ds e : drop_vars names ds = Err e -> e = ValueError.
Proof.
  unfold drop_vars. destruct (forallb _ names); [discriminate | intros H; injection H as <-; reflexivity].
Qed.

Lemma expand_dims_err k ds e : expand_dims k ds = Err e -> e = ValueError.
Proof.
  unfold expand_dims. destruct (in_dims k ds); [intros H; injection H as <-; reflexivity|].
  destruct (existsb _ _); [intros H; injection H as <-; reflexivity | discriminate].
Qed.

Lemma assoc_In_Some {A} k (l : list (string * A)) w : In (k, w) l -> exists a, assoc k l = Some a.
Proof.
  intros H. apply memb_assoc, memb_true. exact (in_map fst _ (k, w) H).
Qed.

Lemma assign_coord_keeps k x ds k' w :
  k' <> k -> In (k', w) (variables ds) -> In (k', w) (variables (assign_coord k x ds)).
Proof.
  intros Hne Hin. unfold variables, assign_coord, in_coords in *. cbn [coords data_vars].
  apply in_app_or in Hin as [Hin|Hin]; apply in_or_app.
  - left. destruct (memb k (map fst (coords ds))).
    + unfold replace_in. apply in_map_iff. exists (k', w). split; [|exact Hin].
      cbn. replace (String.eqb k k') with false by (symmetry; apply String.eqb_neq; congruence).
      reflexivity.
    + apply in_or_app. left. exact Hin.
  - right. apply filter_In. split; [exact Hin|].
    apply negb_true_iff, String.eqb_neq. congruence.
Qed.

(** After [rename_vars({vn: variable})] succeeded, [variable] is a
    variable of the Dataset with the height coordinate. *)
Lemma rename_has_variable vn variable ds ds1 :
  rename_vars [(vn, variable)] ds = Ok ds1 ->
  in_variables variable (assign_coord "height" (scalar 2) ds1) = true.
Proof.
  intros E.
  assert (Hin : exists w, In (variable, w) (variables ds1)).
  { revert E. unfold rename_vars, rebuild. cbn [forallb].
    destruct (in_variables vn ds && true) eqn:Hv; [|discriminate].
    destruct (nodupb _); [|discriminate]. intros H. injection H as <-.
    rewrite andb_true_r in Hv. apply in_variables_In, in_map_iff in Hv as ([k w] & Hk & Hkw).
    cbn in Hk. subst k. exists w. unfold variables in *. cbn [coords data_vars].
    rewrite <- map_app. apply in_map_iff. exists (vn, w). split; [|exact Hkw].
    cbn. rewrite rename_single, String.eqb_refl. reflexivity. }
  destruct Hin as [w Hw].
  assert (Hin2 : exists w', In (variable, w') (variables (assign_coord "height" (scalar 2) ds1))).
  { destruct (String.eqb_spec variable "height") as [->|Hne].
    - exists (scalar 2). unfold variables. apply in_or_app. left. apply assign_coord_has.
    - exists w. apply assign_coord_keeps; assumption. }
  destruct Hin2 as [w' Hw']. apply memb_true. exact (in_map fst _ _ Hw').
Qed.

(** After [rename_vars({vn: variable})] succeeded, [ds[[variable]]] on
    the Dataset with the height coordinate finds [variable]. *)
Lemma select_after_rename vn variable ds ds1 :
  rename_vars [(vn, variable)] ds = Ok ds1 ->
  exists ds3, select_vars [variable] (assign_coord "height" (scalar 2) ds1) = Ok ds3.
Proof.
  intros E. apply rename_has_variable, memb_assoc in E as [a Ha].
  unfold select_vars. cbn [rmap]. unfold getitem at 1. rewrite Ha. cbn [rbind]. eauto.
Qed.



(** C8 (confirmed).  When [variable] is not a key of the variable map, the
    lookup falls back to [variable] itself: the function behaves as with
    the map [{variable: variable}], and no KeyError escapes from
    [rename_and_delete_variables] (its failures are ValueErrors of
    xarray). *)
Theorem rename_and_delete_variables_fallback (var_mapping : gmap string string) (variable : string) :
  var_mapping !! variable = None ->
  var_name_of var_mapping variable = variable /\
  (forall ds, rename_and_delete_variables ds variable var_mapping =
              rename_and_delete_variables ds variable {[variable := variable]}) /\
  (forall ds k, rename_and_delete_variables ds variable var_mapping <> Err (KeyError k)).
Proof.
  intros Hm.
  assert (Hv : var_name_of var_mapping variable = variable)
    by (unfold var_name_of; rewrite Hm; reflexivity).
  split; [exact Hv|]. split.
  - intros ds. unfold rename_and_delete_variables. rewrite Hv.
    replace (var_name_of {[variable := variable]} variable) with variable
      by (unfold var_name_of; rewrite lookup_singleton_eq; reflexivity).
    reflexivity.
  - intros ds k. unfold rename_and_delete_variables. cbv zeta.
    destruct (rename_vars [(var_name_of var_mapping variable, variable)] ds) as [ds1|e] eqn:E1;
      cbn [rbind].
    2:{ apply rename_vars_err in E1. congruence. }
    destruct (select_after_rename _ _ _ _ E1) as [ds3 E3]. rewrite E3. cbn [rbind].
    match goal with |- rbind ?M _ <> _ => destruct M as [ds4|e] eqn:E4 end; cbn [rbind].
    2:{ destruct (negb _); [apply drop_vars_err in E4; congruence | discriminate]. }
    destruct (negb (in_dims "time" ds4)); [|discriminate].
    destruct (expand_dims "time" ds4) eqn:E5; [discriminate|].
    apply expand_dims_err in E5. congruence.
Qed.

Lemma rename_and_delete_variables_fallback_witness :
  var_name_of {["tas" := "t2m"]} "d2m" = "d2m" /\
  rename_and_delete_variables era5_ds "d2m" {["tas" := "t2m"]} =
  rename_and_delete_variables era5_ds "d2m" {["d2m" := "d2m"]}.
Proof.
  assert (Hn : ({["tas" := "t2m"]} : gmap string string) !! "d2m" = None)
    by (vm_compute; reflexivity).
  destruct (rename_and_delete_variables_fallback {["tas" := "t2m"]} "d2m" Hn) as (H1 & H2 & _).
  split; [exact H1 | apply H2].
Defined.

(* ------------------------------------------------------------------ *)
(** ** preprocess and the objects it is given *)

Lemma keeps_refl n0 h : keeps n0 h h.
Proof. intros l _. reflexivity. Qed.

Lemma keeps_trans n0 h1 h2 h3 : keeps n0 h1 h2 -> keeps n0 h2 h3 -> keeps n0 h1 h3.
Proof. intros H12 H23 l Hl. rewrite (H23 l Hl). exact (H12 l Hl). Qed.

Lemma keeps_app n0 h s : (n0 <= List.length h)%nat -> keeps n0 h (h ++ s)%list.
Proof. intros Hn l Hl. apply lookup_app_l. lia. Qed.

Lemma keeps_insert n0 h l d : (n0 <= l)%nat -> keeps n0 h (<[l := d]> h).
Proof. intros Hn l' Hl. apply list_lookup_insert_ne. lia. Qed.

(** Case on the [!!] of a [load]. *)
Ltac case_lookup d :=
  match goal with |- context [match ?x with Some _ => _ | None => _ end] => destruct x as [d|] end.

Lemma fix_spatial_coord_names_h_frame n0 l : frame n0 (fix_spatial_coord_names_h l).
Proof.
  intros h r h' Hn. unfold fix_spatial_coord_names_h, sbind, load, lift, sret, alloc.
  case_lookup d; [|intros [= <- <-]; split; [apply keeps_refl | exact Hn]].
  destruct (fix_spatial_coord_names_obj d) as [[|d']|e]; intros [= <- <-].
  - split; [apply keeps_refl | exact Hn].
  - split; [apply keeps_app, Hn | rewrite length_app; lia].
  - split; [apply keeps_refl | exact Hn].
Qed.

Lemma rename_and_delete_variables_h_frame n0 l variable var_mapping :
  fresh_frame n0 (rename_and_delete_variables_h l variable var_mapping).
Proof.
  intros h r h' Hn. unfold rename_and_delete_variables_h, sbind, load, lift, alloc.
  case_lookup d;
    [|intros [= <- <-]; split; [apply keeps_refl | split; [exact Hn | discriminate]]].
  destruct (rename_and_delete_variables d variable var_mapping) as [d'|e]; intros [= <- <-].
  - split; [apply keeps_app, Hn|]. rewrite length_app. split; [lia|]. intros l' [= <-]. exact Hn.
  - split; [apply keeps_refl | split; [exact Hn | discriminate]].
Qed.

Lemma length_store (h : heap) (l : loc) (d : Dataset) :
  List.length (<[l := d]> h) = List.length h.
Proof. apply length_insert. Qed.

Lemma store_opt_frame n0 l (upd : option Dataset) h r h1 :
  (n0 <= l)%nat ->
  (match upd with Some d => store l d | None => sret tt end) h = (r, h1) ->
  keeps n0 h h1 /\ List.length h1 = List.length h /\ r = Ok tt.
Proof.
  intros Hl. destruct upd as [d|]; unfold store, sret; intros [= <- <-].
  - split; [apply keeps_insert, Hl | split; [apply length_insert | reflexivity]].
  - split; [apply keeps_refl | split; reflexivity].
Qed.

Lemma fix_360_longitudes_h_frame n0 l project lonname :
  (n0 <= l)%nat -> fresh_frame n0 (fix_360_longitudes_h l project lonname).
Proof.
  intros Hl h r h' Hn. unfold fix_360_longitudes_h, sbind at 1, load at 1.
  case_lookup d; [|intros [= <- <-]; split; [apply keeps_refl | split; [exact Hn | discriminate]]].
  set (lonname' := if negb (str_contains "CERRA" project) then lonname else "longitude").
  unfold sbind at 1, lift at 1.
  destruct (fix_360_rewrap d lonname') as [upd|e];
    [|intros [= <- <-]; split; [apply keeps_refl | split; [exact Hn | discriminate]]].
  unfold sbind at 1.
  destruct ((match upd with Some d1 => store l d1 | None => sret tt end) h) as [r1 h1] eqn:E1.
  destruct (store_opt_frame n0 l upd h r1 h1 Hl E1) as (K1 & L1 & ->).
  unfold sbind at 1, load at 1.
  case_lookup d2; [|intros [= <- <-]; split; [exact K1 | split; [lia | discriminate]]].
  destruct (negb (str_contains "CERRA" project)).
  - unfold sbind at 1, lift at 1.
    destruct (getattr "lat" d2) as [lat|e];
      [|intros [= <- <-]; split; [exact K1 | split; [lia | discriminate]]].
    destruct (negb (Nat.eqb (List.length (vdims lat)) 2)).
    + unfold sbind, lift, alloc. destruct (reindex_sorted d2 lonname') as [d3|e]; intros [= <- <-].
      * split; [apply (keeps_trans _ _ h1); [exact K1 | apply keeps_app; lia]|].
        rewrite length_app. split; [lia|]. intros l' [= <-]. lia.
      * split; [exact K1 | split; [lia | discriminate]].
    + unfold sret. intros [= <- <-]. split; [exact K1 | split; [lia|]]. intros l' [= <-]. exact Hl.
  - unfold sret. intros [= <- <-]. split; [exact K1 | split; [lia|]]. intros l' [= <-]. exact Hl.
Qed.

Lemma convert_units_h_frame {keep_attrs : bool} n0 l : (n0 <= l)%nat -> fresh_frame n0 (convert_units_h keep_attrs l).
Proof.
  intros Hl h r h' Hn. unfold convert_units_h, sbind, load, lift, store, sret.
  case_lookup d;
    [|intros [= <- <-]; split; [apply keeps_refl | split; [exact Hn | discriminate]]].
  destruct (convert_loop keep_attrs (map fst (data_vars d)) d) as [[u|e] d'].
  - intros [= <- <-]. split; [apply keeps_insert, Hl|]. rewrite length_store.
    split; [exact Hn|]. intros l' [= <-]. exact Hl.
  - intros [= <- <-]. split; [apply keeps_insert, Hl|]. rewrite length_store.
    split; [exact Hn | discriminate].
Qed.

Lemma preprocess_h_frame {keep_attrs : bool} n0 l0 project variable variable_map :
  fresh_frame n0 (preprocess_h keep_attrs l0 project variable variable_map).
Proof.
  intros h r h' Hn. unfold preprocess_h. unfold sbind at 1.
  destruct (fix_spatial_coord_names_h l0 h) as [[l1|e] h1] eqn:EA;
    destruct (fix_spatial_coord_names_h_frame n0 l0 h _ _ Hn EA) as [KA LA];
    [|intros [= <- <-]; split; [exact KA | split; [exact LA | discriminate]]].
  unfold sbind at 1.
  destruct (rename_and_delete_variables_h l1 variable variable_map h1) as [[l2|e] h2] eqn:EB;
    destruct (rename_and_delete_variables_h_frame n0 l1 variable variable_map h1 _ _ LA EB)
      as (KB & LB & RB);
    [|intros [= <- <-]; split; [exact (keeps_trans _ _ _ _ KA KB) | split; [exact LB | discriminate]]].
  specialize (RB l2 eq_refl).
  unfold sbind at 1.
  destruct (fix_360_longitudes_h l2 project "lon" h2) as [[l3|e] h3] eqn:EC;
    destruct (fix_360_longitudes_h_frame n0 l2 project "lon" RB h2 _ _ LB EC) as (KC & LC & RC);
    [|intros [= <- <-]; split;
      [exact (keeps_trans _ _ _ _ (keeps_trans _ _ _ _ KA KB) KC) | split; [exact LC | discriminate]]].
  specialize (RC l3 eq_refl).
  unfold sbind at 1.
  destruct (convert_units_h keep_attrs l3 h3) as [[l4|e] h4] eqn:ED;
    destruct (convert_units_h_frame n0 l3 RC h3 _ _ LC ED) as (KD & LD & RD);
    intros [= <- <-];
    (split; [exact (keeps_trans _ _ _ _ (keeps_trans _ _ _ _ (keeps_trans _ _ _ _ KA KB) KC) KD)
            | split; [exact LD|]]).
  - intros l [= <-]. exact (RD l4 eq_refl).
  - discriminate.
Qed.

(** C9 (confirmed).  [preprocess] leaves the Dataset object it is given as
    it was: after a call, whether it returns or raises, the argument holds
    its original value.  More generally, on any heap of objects a call of
    [preprocess] changes none of the objects that existed before it, and
    the Dataset it returns is a new object. *)
Theorem preprocess_pure {keep_attrs : bool} (ds : Dataset) (project variable : string)
    (variable_map : gmap string string) :
  snd (call (fun l => preprocess_h keep_attrs l project variable variable_map) ds) = ds /\
  (forall (h : heap) (l0 : loc),
     let '(r, h') := preprocess_h keep_attrs l0 project variable variable_map h in
     (forall l, (l < List.length h)%nat -> h' !! l = h !! l) /\
     (forall l, r = Ok l -> (List.length h <= l)%nat)).
Proof.
  assert (G : forall (h : heap) (l0 : loc),
     let '(r, h') := preprocess_h keep_attrs l0 project variable variable_map h in
     (forall l, (l < List.length h)%nat -> h' !! l = h !! l) /\
     (forall l, r = Ok l -> (List.length h <= l)%nat)).
  { intros h l0. destruct (preprocess_h keep_attrs l0 project variable variable_map h) as [r h'] eqn:E.
    destruct (preprocess_h_frame (List.length h) l0 project variable variable_map h r h'
                (le_n _) E) as (K & _ & R).
    split; [exact K | exact R]. }
  split; [|exact G].
  specialize (G [ds] 0%nat). unfold call.
  destruct (preprocess_h keep_attrs 0 project variable variable_map [ds]) as [[l|e] h'];
    destruct G as [K _]; cbn [snd]; rewrite (K 0%nat ltac:(simpl; lia)); reflexivity.
Qed.

(** Witness for C9 on an ERA5 Dataset, with [tas] read from [t2m]. *)
Lemma preprocess_pure_witness :
  snd (call (fun l => preprocess_h true l "ERA5" "tas" ({["tas" := "t2m"]} : gmap string string)) era5_ds)
  = era5_ds.
Proof. exact (proj1 (preprocess_pure era5_ds "ERA5" "tas" {["tas" := "t2m"]})). Defined.

(* ------------------------------------------------------------------ *)
(** ** The stages of preprocess: exceptions, invariants and composition *)

Ltac use_lookup Hl :=
  match goal with |- context [match ?x with Some _ => _ | None => _ end] =>
    let T := type of Hl in
    match T with _ = ?r => replace x with r by (symmetry; exact Hl) end end.

Lemma lookup_alloc (h : heap) (d : Dataset) : (h ++ [d])%list !! List.length h = Some d.
Proof. rewrite lookup_app_r by lia. rewrite Nat.sub_diag. reflexivity. Qed.

Lemma lookup_store (h : heap) (l : loc) (d d0 : Dataset) :
  h !! l = Some d0 -> <[l := d]> h !! l = Some d.
Proof. intros H. apply list_lookup_insert_eq. apply lookup_lt_is_Some_1. exists d0. exact H. Qed.

Lemma fix_spatial_coord_names_computes : computes fix_spatial_coord_names_h fix_spatial_coord_names.
Proof.
  intros l h d Hl. unfold fix_spatial_coord_names_h, fix_spatial_coord_names, sbind, load, lift, sret, alloc.
  use_lookup Hl. destruct (fix_spatial_coord_names_obj d) as [[|d']|e]; simpl.
  - exists d. auto.
  - exists d'. split; [reflexivity | apply lookup_alloc].
  - reflexivity.
Qed.

Lemma rename_and_delete_variables_computes variable var_mapping :
  computes (fun l => rename_and_delete_variables_h l variable var_mapping)
           (fun d => rename_and_delete_variables d variable var_mapping).
Proof.
  intros l h d Hl. unfold rename_and_delete_variables_h, sbind, load, lift, alloc.
  use_lookup Hl. destruct (rename_and_delete_variables d variable var_mapping) as [d'|e]; simpl.
  - exists d'. split; [reflexivity | apply lookup_alloc].
  - reflexivity.
Qed.

Lemma fix_360_longitudes_computes project :
  computes (fun l => fix_360_longitudes_h l project "lon") (fun d => fix_360_longitudes d project).
Proof.
  intros l h d Hl. rewrite fix_360_longitudes_eq.
  unfold fix_360_longitudes_h, lon_name, sbind, load, lift, store, alloc, sret.
  use_lookup Hl.
  destruct (fix_360_rewrap d _) as [upd|e]; [|reflexivity]. cbn [rbind].
  assert (H2 : forall d1, upd = Some d1 -> <[l := d1]> h !! l = Some d1)
    by (intros d1 _; exact (lookup_store h l d1 d Hl)).
  destruct upd as [d1|]; cbn [default from_option]; unfold id;
    [specialize (H2 d1 eq_refl); use_lookup H2 | use_lookup Hl]; cbv beta iota;
    (destruct (negb (str_contains "CERRA" project)); cbn [rbind];
     [ match goal with |- context [getattr "lat" ?D] =>
         destruct (getattr "lat" D) as [lat|e]; cbv beta iota; cbn [rbind]; [|reflexivity] end;
       destruct (negb _); cbv beta iota;
       [ match goal with |- context [reindex_sorted ?D ?K] =>
           destruct (reindex_sorted D K) as [d3|e]; cbv beta iota; [|reflexivity] end;
         exists d3; split; [reflexivity | apply lookup_alloc]
       | eexists; split; [reflexivity|]; eassumption ]
     | eexists; split; [reflexivity|]; eassumption ]).
Qed.

Lemma convert_units_loop {keep_attrs : bool} ds :
  convert_units keep_attrs ds =
  match convert_loop keep_attrs (map fst (data_vars ds)) ds with
  | (Ok _, d') => Ok d'
  | (Err e, _) => Err e
  end.
Proof.
  unfold convert_units, call, convert_units_h, sbind, load, lift, store, sret. simpl.
  destruct (convert_loop keep_attrs _ ds) as [[u|e] d']; reflexivity.
Qed.

Lemma convert_units_computes {keep_attrs : bool} : computes (convert_units_h keep_attrs) (convert_units keep_attrs).
Proof.
  intros l h d Hl. rewrite convert_units_loop.
  unfold convert_units_h, sbind, load, lift, store, sret. use_lookup Hl. cbv beta iota.
  destruct (convert_loop keep_attrs _ d) as [[u|e] d']; cbv beta iota; [|reflexivity].
  exists d'. split; [reflexivity | exact (lookup_store h l d' d Hl)].
Qed.

Lemma computes_bind (m1 m2 : loc -> st loc) f1 f2 :
  computes m1 f1 -> computes m2 f2 ->
  computes (fun l => sbind (m1 l) m2) (fun d => let! d1 := f1 d in f2 d1).
Proof.
  intros H1 H2 l h d Hl. unfold sbind. specialize (H1 l h d Hl).
  destruct (m1 l h) as [[l1|e] h1]; [|rewrite H1; reflexivity].
  destruct H1 as (d1 & E1 & L1). rewrite E1. cbn [rbind]. exact (H2 l1 h1 d1 L1).
Qed.

Lemma computes_ret : computes (fun l => sret l) (fun d => Ok d).
Proof. intros l h d Hl. exists d. split; [reflexivity | exact Hl]. Qed.

Lemma computes_ext m f g : (forall d, f d = g d) -> computes m f -> computes m g.
Proof. intros E H l h d Hl. specialize (H l h d Hl). rewrite <- !E. exact H. Qed.

Lemma rbind_ret {A} (m : result A) : (let! x := m in Ok x) = m.
Proof. destruct m; reflexivity. Qed.

Lemma preprocess_eq_stages {keep_attrs : bool} ds project variable variable_map :
  preprocess keep_attrs ds project variable variable_map = preprocess_stages keep_attrs ds project variable variable_map.
Proof.
  assert (C : computes (fun l => preprocess_h keep_attrs l project variable variable_map)
                       (fun d => preprocess_stages keep_attrs d project variable variable_map)).
  { eapply computes_ext; [|
      exact (computes_bind _ _ _ _ fix_spatial_coord_names_computes
        (computes_bind _ _ _ _ (rename_and_delete_variables_computes variable variable_map)
          (computes_bind _ _ _ _ (fix_360_longitudes_computes project)
             (computes_bind _ _ _ _ (convert_units_computes (keep_attrs:=keep_attrs)) computes_ret))))].
    intros d. cbv beta. unfold preprocess_stages.
    destruct (fix_spatial_coord_names d) as [d1|e]; cbn [rbind]; [|reflexivity].
    destruct (rename_and_delete_variables d1 variable variable_map) as [d2|e]; cbn [rbind]; [|reflexivity].
    destruct (fix_360_longitudes d2 project) as [d3|e]; cbn [rbind]; [|reflexivity].
    apply rbind_ret. }
  unfold preprocess, call. specialize (C 0%nat [ds] ds eq_refl).
  destruct (preprocess_h keep_attrs 0 project variable variable_map [ds]) as [[l|e] h].
  - destruct C as (d' & E & L). rewrite E. use_lookup L. reflexivity.
  - symmetry. exact C.
Qed.

Lemma ds_rename_err nd ds e : ds_rename nd ds = Err e -> e = ValueError.
Proof.
  unfold ds_rename, rebuild. destruct (forallb _ nd); [|congruence].
  destruct (nodupb _); congruence.
Qed.

(** [fix_spatial_coord_names] raises NotImplementedError exactly when the
    Dataset has none of rlon, lon and longitude (as a dimension or a
    coordinate), no dimension x and no coordinate y; every other exception
    it raises is the ValueError of [Dataset.rename]. *)
Theorem fix_spatial_coord_names_errors (ds : Dataset) :
  (fix_spatial_coord_names ds = Err NotImplementedError <->
   has "rlon" ds = false /\ has "lon" ds = false /\ has "longitude" ds = false /\
   in_dims "x" ds = false /\ in_coords "y" ds = false) /\
  (forall e, fix_spatial_coord_names ds = Err e -> e = ValueError \/ e = NotImplementedError).
Proof.
  unfold fix_spatial_coord_names, fix_spatial_coord_names_obj.
  destruct (has "rlon" ds) eqn:R, (has "longitude" ds) eqn:L, (has "i" ds) eqn:I, (has "lon" ds) eqn:O,
    (in_dims "x" ds || in_coords "y" ds) eqn:X; cbn [andb];
  repeat match goal with
  | |- context [ds_rename ?nd ds] =>
      let E := fresh "E" in destruct (ds_rename nd ds) eqn:E; cbn [rbind];
      [|pose proof (ds_rename_err _ _ _ E); subst]
  end;
  rewrite ?orb_true_iff, ?orb_false_iff in X;
  (split; [split; [intros H; try discriminate; try (injection H as H; discriminate) | intros H] | ]);
  try (intros e H; injection H as <-; auto);
  try (intros e H; discriminate);
  intuition congruence.
Qed.


Lemma contents_rn nd l : contents (map (rn_entry nd) l) = contents l.
Proof.
  unfold contents. rewrite map_map. apply map_ext. intros [k v]. cbn.
  rewrite map_map. f_equal. f_equal. apply map_ext. intros [d n]. reflexivity.
Qed.

(** [fix_spatial_coord_names] only renames: coordinates and data variables
    keep their order, the sizes of their dimensions, their values and their
    attributes. *)
Theorem fix_spatial_coord_names_keeps_contents (ds d : Dataset) :
  fix_spatial_coord_names ds = Ok d ->
  contents (coords d) = contents (coords ds) /\ contents (data_vars d) = contents (data_vars ds).
Proof.
  unfold fix_spatial_coord_names, fix_spatial_coord_names_obj.
  repeat match goal with
  | |- context [if ?c then _ else _] => destruct c
  end;
  repeat match goal with
  | |- context [ds_rename ?nd ds] =>
      let E := fresh "E" in destruct (ds_rename nd ds) eqn:E; cbn [rbind]; [|discriminate]
  end; cbn [rbind value_of]; intros H; try discriminate; injection H as <-;
  try (split; reflexivity);
  match goal with E : ds_rename ?nd ds = Ok ?d' |- _ =>
    destruct (ds_rename_ok _ _ _ E) as [-> ->]; rewrite !contents_rn; split; reflexivity end.
Qed.



Lemma dim_size_none k l :
  dim_size k l = None <-> forall n v, In (n, v) l -> assoc k (vdims v) = None.
Proof.
  induction l as [|[n0 v0] l IH]; simpl.
  - split; [intros _ n v []|reflexivity].
  - destruct (assoc k (vdims v0)) eqn:E.
    + split; [discriminate|]. intros H. rewrite (H n0 v0 (or_introl eq_refl)) in E. discriminate.
    + rewrite IH. split.
      * intros H n v [Heq|Hin]; [injection Heq as <- <-; exact E | exact (H n v Hin)].
      * intros H n v Hin. exact (H n v (or_intror Hin)).
Qed.



Lemma getitem_none k ds :
  assoc k (variables ds) = None -> dim_size k (variables ds) = None -> getitem k ds = Err (KeyError k).
Proof. unfold getitem. intros -> ->. reflexivity. Qed.


Lemma fix_360_longitudes_no_lon (ds : Dataset) (project : string) :
  assoc (lon_name project) (variables ds) = None -> dim_size (lon_name project) (variables ds) = None ->
  fix_360_longitudes ds project = Err (KeyError (lon_name project)).
Proof.
  rewrite fix_360_longitudes_eq. unfold fix_360_rewrap. intros H1 H2.
  rewrite (getitem_none _ _ H1 H2). reflexivity.
Qed.











Lemma NoDup_fst_filter (p : string * variable -> bool) (l : list (string * variable)) :
  NoDup (map fst l) -> NoDup (map fst (List.filter p l)).
Proof.
  intros H. apply NoDup_ListNoDup in H. apply NoDup_ListNoDup.
  induction l as [|[k v] l IH]; cbn [List.filter]; [constructor|].
  inversion H as [|? ? Hk Hl]; subst. destruct (p (k, v)); cbn [map fst]; [constructor|]; auto.
  intros Hin. apply Hk. apply in_map_iff in Hin as ([k' v'] & Hk' & Hin). cbn in Hk'. subst.
  apply filter_In in Hin as [Hin _]. exact (in_map fst _ _ Hin).
Qed.

Lemma names_unique_split ds :
  names_unique ds <-> NoDup (map fst (coords ds ++ data_vars ds)).
Proof. reflexivity. Qed.

(** The stages of [rename_and_delete_variables], one by one. *)
Lemma rd_rename vn variable ds ds1 :
  rename_vars [(vn, variable)] ds = Ok ds1 ->
  names_unique ds1 /\
  (forall w, In (variable, w) (variables ds1) -> In (vn, w) (variables ds)) /\
  (forall k w, In (k, w) (coords ds1) -> exists k0, In (k0, w) (coords ds)).
Proof.
  intros E. pose proof (rename_vars_unique _ _ _ E) as Hu. split; [exact Hu|].
  revert E. unfold rename_vars, rebuild. cbn [forallb].
  destruct (in_variables vn ds && true) eqn:Hv; [|discriminate].
  destruct (nodupb _); [|discriminate]. intros H. injection H as <-.
  rewrite andb_true_r in Hv. apply in_variables_In, in_map_iff in Hv as ([k0 v0] & Hk0 & Hin0).
  cbn in Hk0. subst k0.
  assert (Hmap : forall k w, In (k, w) (variables (mkDs
      (map (fun '(k, v) => (rename_name [(vn, variable)] k, v)) (coords ds))
      (map (fun '(k, v) => (rename_name [(vn, variable)] k, v)) (data_vars ds)))) <->
      exists k0, In (k0, w) (variables ds) /\ rename_name [(vn, variable)] k0 = k).
  { intros k w. unfold variables. cbn [coords data_vars]. rewrite <- map_app, in_map_iff.
    split.
    - intros ([k0 w0] & Hk & Hin). injection Hk as <- <-. eauto.
    - intros (k0 & Hin & <-). exists (k0, w). auto. }
  split.
  - intros w Hw. apply Hmap in Hw as (k & Hk & Hr). rewrite rename_single in Hr.
    destruct (String.eqb_spec k vn) as [->|Hne]; [exact Hk|]. subst k.
    assert (Hv0 : In (variable, v0) (variables (mkDs
      (map (fun '(k, v) => (rename_name [(vn, variable)] k, v)) (coords ds))
      (map (fun '(k, v) => (rename_name [(vn, variable)] k, v)) (data_vars ds))))).
    { apply Hmap. exists vn. split; [exact Hin0|]. rewrite rename_single, String.eqb_refl. reflexivity. }
    assert (Hw' : In (variable, w) (variables (mkDs
      (map (fun '(k, v) => (rename_name [(vn, variable)] k, v)) (coords ds))
      (map (fun '(k, v) => (rename_name [(vn, variable)] k, v)) (data_vars ds))))).
    { apply Hmap. exists variable. split; [exact Hk|]. rewrite rename_single.
      destruct (String.eqb_spec variable vn); congruence. }
    rewrite (NoDup_fst_In _ _ _ _ Hu Hw' Hv0). exact Hin0.
  - intros k w H. cbn [coords] in H. apply in_map_iff in H as ([k0 w0] & Hk & Hin).
    injection Hk as _ <-. eauto.
Qed.

Lemma map_fst_replace_in k v l : map fst (replace_in k v l) = map fst l.
Proof.
  unfold replace_in. rewrite map_map. apply map_ext. intros [k0 w]. cbn.
  destruct (String.eqb k k0); reflexivity.
Qed.

Lemma rd_assign ds1 :
  names_unique ds1 ->
  NoDup (map fst (coords (assign_coord "height" (scalar 2) ds1))) /\
  assoc "height" (coords (assign_coord "height" (scalar 2) ds1)) = Some (scalar 2).
Proof.
  intros Hu. unfold names_unique, variables in Hu. rewrite map_app in Hu.
  apply NoDup_app in Hu as (Hc & _ & _).
  unfold assign_coord, in_coords. cbn [coords].
  destruct (memb "height" (map fst (coords ds1))) eqn:E.
  - rewrite map_fst_replace_in, assoc_replace_in. split; [exact Hc|].
    apply memb_assoc in E as [a ->]. reflexivity.
  - split.
    + rewrite map_app. apply NoDup_app. split; [exact Hc|]. split; [|apply NoDup_singleton].
      intros x Hx Hx'. cbn in Hx'. apply list_elem_of_singleton in Hx'. subst x.
      apply list_elem_of_In in Hx. apply memb_false in E. exact (E Hx).
    + rewrite assoc_app. replace (assoc "height" (coords ds1)) with (@None variable); [reflexivity|].
      symmetry. destruct (assoc "height" (coords ds1)) eqn:Ea; [|reflexivity].
      assert (memb "height" (map fst (coords ds1)) = true) by (apply memb_assoc; eauto). congruence.
Qed.

Lemma rd_select vr ds2 ds3 :
  in_variables vr ds2 = true -> select_vars [vr] ds2 = Ok ds3 ->
  (NoDup (map fst (coords ds2)) -> NoDup (map fst (coords ds3))) /\
  (forall kw, In kw (coords ds3) -> In kw (coords ds2)) /\
  (In ("height", scalar 2) (coords ds2) -> In ("height", scalar 2) (coords ds3)) /\
  (data_vars ds3 = [] \/
   exists w, data_vars ds3 = [(vr, w)] /\ ~ In vr (map fst (coords ds2)) /\
     In (vr, w) (data_vars ds2) /\
     (forall kw, In kw (coords ds3) -> incl (dim_names (snd kw)) (dim_names w))).
Proof.
  intros Hiv.
  unfold select_vars. cbn [rmap]. destruct (getitem vr ds2) as [w|e] eqn:Eg; cbn [rbind]; [|discriminate].
  intros H. injection H as <-. cbn [coords data_vars].
  cbn [List.filter]. rewrite Hiv, andb_true_r. cbn [negb]. rewrite app_nil_r.
  split; [apply NoDup_fst_filter|]. split; [|split].
  - intros kw Hin. apply filter_In in Hin as [Hin _]. exact Hin.
  - intros Hin. apply filter_In. split; [exact Hin | reflexivity].
  - destruct (in_coords vr ds2) eqn:Ec; cbn [negb]; [left; reflexivity|].
    right. exists w. split; [reflexivity|].
    assert (Hn : ~ In vr (map fst (coords ds2))) by (apply memb_false; exact Ec).
    split; [exact Hn|]. split.
    + assert (Ha := Hiv). apply memb_assoc in Ha as [a Ha].
      unfold getitem in Eg. rewrite Ha in Eg. injection Eg as <-.
      apply assoc_In in Ha. unfold variables in Ha.
      apply in_app_or in Ha as [Ha|Ha]; [exfalso; apply Hn; exact (in_map fst _ _ Ha) | exact Ha].
    + intros [k w'] Hin x Hx. apply filter_In in Hin as [_ Hf]. cbn [snd] in Hx.
      rewrite forallb_forall in Hf. specialize (Hf x Hx).
      apply memb_true in Hf. cbn [flat_map] in Hf. rewrite app_nil_r in Hf. exact Hf.
Qed.

Lemma rd_drop ds3 ds4 :
  (if negb (same_sorted (map fst (coords ds3)) main_coords) then
     drop_vars (List.filter (fun dim => negb (memb dim main_coords)) (map fst (coords ds3))) ds3
   else Ok ds3) = Ok ds4 ->
  (forall k w, In (k, w) (coords ds4) -> In (k, w) (coords ds3) /\ In k main_coords) /\
  (forall k w, In k main_coords -> In (k, w) (coords ds3) -> In (k, w) (coords ds4)) /\
  (NoDup (map fst (coords ds3)) -> NoDup (map fst (coords ds4))) /\
  (data_vars ds3 = [] -> data_vars ds4 = []) /\
  (forall x, data_vars ds3 = [x] -> data_vars ds4 = [] \/ data_vars ds4 = [x]).
Proof.
  destruct (same_sorted (map fst (coords ds3)) main_coords) eqn:Es; cbn [negb].
  - intros H. injection H as <-. split; [|split; [auto | split; [auto | split; [auto | auto]]]].
    intros k w H. split; [exact H|]. apply (same_sorted_In _ _ _ Es). exact (in_map fst _ (k, w) H).
  - unfold drop_vars. destruct (forallb _ _); [|discriminate]. intros H. injection H as <-.
    cbn [coords data_vars].
    set (drop := List.filter (fun dim => negb (memb dim main_coords)) (map fst (coords ds3))).
    split; [|split; [|split; [|split]]].
    + intros k w H. apply filter_In in H as [Hin Hk]. split; [exact Hin|].
      apply negb_true_iff, memb_false in Hk.
      destruct (memb k main_coords) eqn:Em; [apply memb_true; exact Em|].
      exfalso. apply Hk. unfold drop. apply filter_In. split; [exact (in_map fst _ (k, w) Hin)|].
      change (negb (memb k main_coords) = true). rewrite Em. reflexivity.
    + intros k w Hm Hin. apply filter_In. split; [exact Hin|].
      apply negb_true_iff, memb_false. intros H. unfold drop in H. apply filter_In in H as [_ H].
      change (negb (memb k main_coords) = true) in H.
      apply negb_true_iff, memb_false in H. exact (H Hm).
    + apply NoDup_fst_filter.
    + intros H. rewrite H. reflexivity.
    + intros x H. rewrite H. cbn [List.filter]. destruct x as [k w].
      destruct (negb _); [right | left]; reflexivity.
Qed.

Lemma rd_expand ds4 d :
  (if negb (in_dims "time" ds4) then expand_dims "time" ds4 else Ok ds4) = Ok d ->
  map fst (coords d) = map fst (coords ds4) /\
  (forall k w, k <> "time" -> In (k, w) (coords ds4) -> In (k, w) (coords d)) /\
  (data_vars ds4 = [] -> data_vars d = []) /\
  (forall k w, data_vars ds4 = [(k, w)] ->
     (forall kw, In kw (coords ds4) -> incl (dim_names (snd kw)) (dim_names w)) ->
     exists w', data_vars d = [(k, w')] /\ vdata w' = vdata w /\ vattrs w' = vattrs w /\
       (In "time" (dim_names w) -> vdims w' = vdims w) /\
       (~ In "time" (dim_names w) -> vdims w' = ("time", 1%nat) :: vdims w) /\
       in_dims "time" d = true) /\
  (forall k w, In (k, w) (coords d) ->
     exists w0, In (k, w0) (coords ds4) /\ incl (dim_names w) ("time" :: dim_names w0)).
Proof.
  destruct (in_dims "time" ds4) eqn:Ei; cbn [negb].
  - intros H. injection H as <-. split; [reflexivity | split; [auto | split; [auto|split]]].
    + intros k w H Hinc. exists w. rewrite H. split; [reflexivity|].
      split; [reflexivity|]. split; [reflexivity|]. split; [reflexivity|]. split; [|exact Ei].
      intros Hnt. exfalso. unfold in_dims in Ei. apply existsb_exists in Ei as ([k0 w0] & Hin & Ht).
      apply memb_true in Ht. apply Hnt. unfold variables in Hin. rewrite H in Hin.
      apply in_app_or in Hin as [Hin|[Hin|[]]].
      * exact (Hinc _ Hin _ Ht).
      * injection Hin as <- <-. exact Ht.
    + intros k w Hin. exists w. split; [exact Hin|]. apply incl_tl, incl_refl.
  - unfold expand_dims. rewrite Ei.
    destruct (existsb _ (variables ds4)) eqn:Ex; [discriminate|]. intros H. injection H as <-.
    cbn [coords data_vars]. split; [|split; [|split; [|split]]].
    + rewrite map_map. apply map_ext. intros [k w]. destruct (String.eqb k "time"); reflexivity.
    + intros k w Hk Hin. apply in_map_iff. exists (k, w). split; [|exact Hin].
      replace (String.eqb k "time") with false by (symmetry; apply String.eqb_neq; exact Hk). reflexivity.
    + intros H. rewrite H. reflexivity.
    + intros k w H _.
      assert (Hnt : ~ In "time" (dim_names w)).
      { intros Ht. assert (Hd : in_dims "time" ds4 = true).
        { unfold in_dims. apply existsb_exists. exists (k, w). split.
          - unfold variables. rewrite H. apply in_or_app. right. left. reflexivity.
          - apply memb_true. exact Ht. }
        congruence. }
      rewrite H. cbn [map].
      destruct (String.eqb_spec k "time") as [->|Hk].
      * assert (Hw : vdims w = []).
        { apply not_true_iff_false in Ex. destruct (bool_decide (vdims w = [])) eqn:Eb.
          - exact (bool_decide_eq_true_1 _ Eb).
          - exfalso. apply Ex. apply existsb_exists. exists ("time", w). split.
            + unfold variables. rewrite H. apply in_or_app. right. left. reflexivity.
            + rewrite Eb. reflexivity. }
        eexists. split; [reflexivity|]. cbn. split; [reflexivity|]. split; [reflexivity|].
        split; [intros Ht; contradiction|]. split; [intros _; rewrite Hw; reflexivity|].
        unfold in_dims. apply existsb_exists. eexists. split.
        -- unfold variables. apply in_or_app. right. left. reflexivity.
        -- reflexivity.
      * eexists. split; [reflexivity|]. cbn. split; [reflexivity|]. split; [reflexivity|].
        split; [intros Ht; contradiction|]. split; [reflexivity|].
        unfold in_dims. apply existsb_exists. eexists. split.
        -- unfold variables. apply in_or_app. right. left. reflexivity.
        -- reflexivity.
    + intros k w Hin. apply in_map_iff in Hin as ([k0 w0] & Hk & Hin).
      exists w0. destruct (String.eqb_spec k0 "time") as [->|Hne]; injection Hk as <- <-.
      * split; [exact Hin|]. intros x [<-|[]]. left. reflexivity.
      * split; [exact Hin|]. apply incl_tl, incl_refl.
Qed.


Lemma rd_shape (ds d : Dataset) (variable : string)
    (var_mapping : gmap string string) :
  rename_and_delete_variables ds variable var_mapping = Ok d ->
  names_unique d /\
  assoc "height" (coords d) = Some (scalar 2) /\
  (forall k, In k (map fst (coords d)) -> In k main_coords) /\
  (data_vars d = [] \/
   exists w, data_vars d = [(variable, w)] /\ in_dims "time" d = true /\
     exists v, In (var_name_of var_mapping variable, v) (variables ds) /\
       vdata w = vdata v /\ vattrs w = vattrs v /\
       (In "time" (dim_names v) -> vdims w = vdims v) /\
       (~ In "time" (dim_names v) -> vdims w = ("time", 1%nat) :: vdims v)).
Proof.
  unfold rename_and_delete_variables.
  set (vn := var_name_of var_mapping variable). clearbody vn. cbv zeta.
  destruct (rename_vars [(vn, variable)] ds) as [ds1|e] eqn:E1; cbn [rbind]; [|discriminate].
  destruct (rd_rename _ _ _ _ E1) as (Hu1 & Hvar1 & _).
  destruct (rd_assign ds1 Hu1) as (Hnd2 & Hh2).
  set (ds2 := assign_coord "height" (scalar 2) ds1) in *.
  destruct (select_vars [variable] ds2) as [ds3|e] eqn:E3; cbn [rbind]; [|discriminate].
  destruct (rd_select _ _ _ (rename_has_variable _ _ _ _ E1) E3) as (Hnd3 & H3c & H3h & H3d).
  match goal with |- rbind ?M _ = Ok d -> _ => destruct M as [ds4|e] eqn:E4; cbn [rbind]; [|discriminate] end.
  destruct (rd_drop _ _ E4) as (H4c & H4m & H4nd & H4e & H4x).
  intros E5. destruct (rd_expand _ _ E5) as (H5n & H5c & H5e & H5x & _).
  assert (Hndc : NoDup (map fst (coords d))) by (rewrite H5n; exact (H4nd (Hnd3 Hnd2))).
  assert (Hhd : In ("height", scalar 2) (coords d)).
  { apply H5c; [discriminate|]. apply H4m; [cbn; tauto|]. apply H3h. apply assoc_In. exact Hh2. }
  assert (Hcoords : forall k, In k (map fst (coords d)) -> In k (map fst (coords ds2))).
  { intros k Hk. rewrite H5n in Hk. apply in_map_iff in Hk as ([k' w] & Hk & Hin). cbn in Hk. subst k'.
    apply (in_map fst _ (k, w)). apply H3c. exact (proj1 (H4c k w Hin)). }
  assert (Hmain : forall k, In k (map fst (coords d)) -> In k main_coords).
  { intros k Hk. rewrite H5n in Hk. apply in_map_iff in Hk as ([k' w] & Hk & Hin). cbn in Hk. subst k'.
    exact (proj2 (H4c k w Hin)). }
  assert (Hdata : data_vars d = [] \/
     exists w, data_vars d = [(variable, w)] /\ ~ In variable (map fst (coords d)) /\ in_dims "time" d = true /\
     exists v, In (vn, v) (variables ds) /\ vdata w = vdata v /\ vattrs w = vattrs v /\
       (In "time" (dim_names v) -> vdims w = vdims v) /\
       (~ In "time" (dim_names v) -> vdims w = ("time", 1%nat) :: vdims v)).
  { destruct H3d as [H3d | (w & H3d & Hnc & Hin2 & Hinc)]; [left; exact (H5e (H4e H3d))|].
    destruct (H4x _ H3d) as [H4d | H4d]; [left; exact (H5e H4d)|].
    right. destruct (H5x _ _ H4d) as (w' & Hd & Hv & Ha & Hdims & Hdims' & Ht).
    { intros [k w0] Hin. apply (Hinc (k, w0)). apply H4c in Hin as [Hin _]. exact Hin. }
    exists w'. split; [exact Hd|]. split; [intros H; exact (Hnc (Hcoords _ H))|]. split; [exact Ht|].
    exists w. split; [|auto].
    apply Hvar1. unfold ds2 in Hin2. apply assign_coord_data_vars in Hin2 as [_ Hin2].
    unfold variables. apply in_or_app. right. exact Hin2. }
  split; [|split; [|split]].
  - unfold names_unique, variables. rewrite map_app.
    destruct Hdata as [-> | (w & -> & Hnc & _)]; cbn [map fst].
    + rewrite app_nil_r. exact Hndc.
    + apply NoDup_app. split; [exact Hndc|]. split; [|apply NoDup_singleton].
      intros x Hx Hx'. apply list_elem_of_singleton in Hx'. subst x.
      apply list_elem_of_In in Hx. exact (Hnc Hx).
  - apply assoc_unique; [eauto|]. intros w Hw. exact (NoDup_fst_In _ _ _ _ Hndc Hw Hhd).
  - exact Hmain.
  - destruct Hdata as [H | (w & Hd & _ & Ht & Hv)]; [left; exact H | right; exists w; auto].
Qed.


Lemma NoDup_map_collide (f : string -> string) (l : list string) a b :
  NoDup (map f l) -> In a l -> In b l -> a <> b -> f a = f b -> False.
Proof.
  intros H. apply NoDup_ListNoDup in H. induction l as [|x l IH]; cbn [In]; [tauto|].
  cbn [map] in H. inversion H as [|? ? Hx Hl]; subst.
  intros [<-|Ha] [<-|Hb] Hne Hf; [congruence | | |].
  - apply Hx. rewrite Hf. exact (in_map f _ _ Hb).
  - apply Hx. rewrite <- Hf. exact (in_map f _ _ Ha).
  - exact (IH Hl Ha Hb Hne Hf).
Qed.

(** [rename_and_delete_variables] raises ValueError when the source name
    (the mapped name of [variable], or [variable] itself) is not a variable
    of the Dataset, and when [variable] already names a variable and the
    source name differs from it (the renaming would clash). *)
Theorem rename_and_delete_variables_rename_errors (ds : Dataset) (variable : string)
    (var_mapping : gmap string string) :
  (~ In (var_name_of var_mapping variable) (map fst (variables ds)) ->
     rename_and_delete_variables ds variable var_mapping = Err ValueError) /\
  (In variable (map fst (variables ds)) -> var_name_of var_mapping variable <> variable ->
     rename_and_delete_variables ds variable var_mapping = Err ValueError).
Proof.
  unfold rename_and_delete_variables.
  set (vn := var_name_of var_mapping variable). clearbody vn. cbv zeta.
  assert (A : ~ In vn (map fst (variables ds)) -> rename_vars [(vn, variable)] ds = Err ValueError).
  { intros H. unfold rename_vars. cbn [forallb].
    replace (in_variables vn ds) with false; [reflexivity|].
    symmetry. apply memb_false. exact H. }
  split; [intros H; rewrite (A H); reflexivity|].
  intros Hv Hne. destruct (in_variables vn ds) eqn:Evn.
  2:{ rewrite A; [reflexivity|]. apply memb_false. exact Evn. }
  unfold rename_vars. cbn [forallb]. rewrite Evn. cbn [andb]. unfold rebuild.
  replace (nodupb _) with false; [reflexivity|].
  symmetry. apply not_true_iff_false. intros Hnd. apply nodupb_NoDup in Hnd.
  apply (NoDup_map_collide (fun k => if String.eqb k vn then variable else k)
           (map fst (variables ds)) vn variable); [| |exact Hv|exact Hne|].
  - match goal with H : NoDup ?L |- NoDup ?M => replace M with L; [exact H|] end.
    unfold variables. rewrite !map_app, !map_map. f_equal; apply map_ext; intros [k v]; cbn;
      rewrite rename_single; reflexivity.
  - apply in_variables_In. exact Evn.
  - rewrite String.eqb_refl. destruct (String.eqb_spec variable vn); congruence.
Qed.


Lemma convert_entry_cases {keep_attrs : bool} n v p :
  convert_entry keep_attrs (n, v) = Ok p ->
  exists u valid, assoc "units" (vattrs v) = Some u /\ assoc n VALID_UNITS = Some valid /\
    ((u = valid /\ p = (n, v)) \/
     (u <> valid /\ exists s o t, assoc u UNIT_CONVERTER = Some (s, o, t) /\
        p = (n, converted keep_attrs v s o t))).
Proof.
  unfold convert_entry, rbind, dict_get. intros Hp.
  destruct (assoc "units" (vattrs v)) as [u|] eqn:Eu; [|discriminate].
  destruct (assoc n VALID_UNITS) as [valid|] eqn:Ev; [|discriminate].
  exists u, valid. split; [reflexivity|]. split; [reflexivity|].
  destruct (String.eqb_spec u valid) as [->|Hne].
  - injection Hp as <-. left. auto.
  - destruct (assoc u UNIT_CONVERTER) as [[[s o] t]|]; [|discriminate].
    injection Hp as <-. right. split; [exact Hne|]. exists s, o, t. auto.
Qed.

Lemma convert_entry_dims {keep_attrs : bool} p p' : convert_entry keep_attrs p = Ok p' -> fst p' = fst p /\ vdims (snd p') = vdims (snd p).
Proof.
  destruct p as [n v]. intros H.
  destruct (convert_entry_cases n v p' H) as (u & valid & _ & _ & [[_ ->] | (_ & s & o & t & _ & ->)]);
    split; reflexivity.
Qed.

Lemma convert_entries_dims {keep_attrs : bool} l : dims_of (snd (convert_entries keep_attrs l)) = dims_of l.
Proof.
  induction l as [|p l IH]; simpl; [reflexivity|].
  destruct (convert_entry keep_attrs p) as [p'|e] eqn:Ep; [|reflexivity].
  destruct (convert_entries keep_attrs l) as [r l''] eqn:El. simpl in *.
  destruct (convert_entry_dims p p' Ep) as [H1 H2]. destruct p as [n v], p' as [n' v'].
  cbn in H1, H2 |- *. rewrite H1, H2, IH. reflexivity.
Qed.

Lemma convert_entries_all {keep_attrs : bool} l :
  fst (convert_entries keep_attrs l) = Ok tt ->
  forall p, In p l -> exists p', convert_entry keep_attrs p = Ok p' /\ In p' (snd (convert_entries keep_attrs l)).
Proof.
  induction l as [|q l IH]; simpl; [intros _ p []|].
  destruct (convert_entry keep_attrs q) as [q'|e] eqn:Eq; [|discriminate].
  destruct (convert_entries keep_attrs l) as [r l''] eqn:El. simpl in *. intros Hok p [<-|Hp].
  - exists q'. auto.
  - destruct (IH Hok p Hp) as (p' & H1 & H2). exists p'. auto.
Qed.

Lemma convert_units_ok {keep_attrs : bool} (ds d : Dataset) :
  names_unique ds -> convert_units keep_attrs ds = Ok d ->
  coords d = coords ds /\ dims_of (data_vars d) = dims_of (data_vars ds) /\
  forall n v, In (n, v) (data_vars ds) ->
    exists u valid, assoc "units" (vattrs v) = Some u /\ assoc n VALID_UNITS = Some valid /\
      ((u = valid /\ In (n, v) (data_vars d)) \/
       (u <> valid /\ exists s o t, assoc u UNIT_CONVERTER = Some (s, o, t) /\
          In (n, converted keep_attrs v s o t) (data_vars d))).
Proof.
  intros Hu. unfold convert_units. rewrite (convert_units_call ds Hu). cbn [fst].
  destruct (fst (convert_entries keep_attrs (data_vars ds))) as [[]|e] eqn:Ef; [|discriminate].
  intros H; injection H as <-. cbn [coords data_vars].
  split; [reflexivity|]. split; [apply convert_entries_dims|].
  intros n v Hin. destruct (convert_entries_all _ Ef _ Hin) as (p' & Hc & Hp').
  destruct (convert_entry_cases n v p' Hc) as (u & valid & Hu1 & Hv1 & Hcase).
  exists u, valid. split; [exact Hu1|]. split; [exact Hv1|].
  destruct Hcase as [[Heq ->] | (Hne & s & o & t & Hconv & ->)]; [left; auto | right].
  split; [exact Hne|]. exists s, o, t. auto.
Qed.

Lemma Forall2_map_Qeq (f g : Q -> Q) (l : list Q) :
  (forall x, f x == g x)%Q -> Forall2 (fun x y => y == g x)%Q l (map f l).
Proof. intros H. induction l as [|x l IH]; constructor; [apply H | exact IH]. Qed.

(** For a data variable whose expected unit is Celsius (tas, tasmax, tasmin,
    mx2t, sst), a successful [convert_units] leaves it alone in Celsius,
    keeps the values of degC, subtracts 273.15 from K and Kelvin, and maps
    Fahrenheit x to (x - 32) * 5/9; the converted variable keeps its
    dimensions, and its attributes are those the arithmetic keeps (all of
    them, or none, by [keep_attrs]) with units set to Celsius. *)
Theorem convert_units_temperature {keep_attrs : bool} (ds d : Dataset) (n : string) (v : variable) :
  names_unique ds -> convert_units keep_attrs ds = Ok d -> In (n, v) (data_vars ds) ->
  assoc n VALID_UNITS = Some "Celsius" ->
  exists w, In (n, w) (data_vars d) /\ vdims w = vdims v /\
    ((assoc "units" (vattrs v) = Some "Celsius" -> w = v) /\
     (assoc "units" (vattrs v) = Some "degC" ->
        vattrs w = set_attr "units" "Celsius" (arith_attrs keep_attrs (vattrs v)) /\ vdata w = vdata v) /\
     (assoc "units" (vattrs v) = Some "K" \/ assoc "units" (vattrs v) = Some "Kelvin" ->
        vattrs w = set_attr "units" "Celsius" (arith_attrs keep_attrs (vattrs v)) /\
        Forall2 (fun x y => y == x - (27315 # 100))%Q (vdata v) (vdata w)) /\
     (assoc "units" (vattrs v) = Some "Fahrenheit" ->
        vattrs w = set_attr "units" "Celsius" (arith_attrs keep_attrs (vattrs v)) /\
        Forall2 (fun x y => y == (x - 32) * (5 # 9))%Q (vdata v) (vdata w))).
Proof.
  intros Hu Hc Hin Hv. destruct (convert_units_ok ds d Hu Hc) as (_ & _ & H).
  destruct (H n v Hin) as (u & valid & Hu1 & Hv1 & Hcase).
  rewrite Hv in Hv1. injection Hv1 as <-. rewrite Hu1.
  destruct Hcase as [[-> Hw] | (Hne & s & o & t & Hconv & Hw)].
  - exists v. split; [exact Hw|]. split; [reflexivity|].
    split; [reflexivity|]. split; [|split]; intros E.
    + discriminate.
    + destruct E; discriminate.
    + discriminate.
  - eexists. split; [exact Hw|]. split; [reflexivity|]. unfold converted. cbn [vattrs vdata].
    split; [intros E; injection E as ->; contradiction|].
    split; [|split]; intros E.
    + injection E as ->. injection Hconv as <- <- <-. split; [reflexivity|].
      transitivity (map (fun x => x) (vdata v)); [apply map_ext; apply Q_mul_1_add_0 | apply map_id].
    + destruct E as [E|E]; injection E as ->; injection Hconv as <- <- <-;
        (split; [reflexivity|]); apply Forall2_map_Qeq; intros x; ring.
    + injection E as ->. injection Hconv as <- <- <-. split; [reflexivity|].
      apply Forall2_map_Qeq. intros x. ring.
Qed.






Lemma in_dims_dims_of k d d' :
  dims_of (coords d) = dims_of (coords d') -> dims_of (data_vars d) = dims_of (data_vars d') ->
  in_dims k d = in_dims k d'.
Proof.
  intros Hc Hd.
  assert (E : forall x, in_dims k x = existsb (fun '(_, ns) => memb k (map fst ns))
                                         (dims_of (coords x) ++ dims_of (data_vars x))%list).
  { intros x. unfold in_dims, variables, dims_of. rewrite <- map_app.
    induction (coords x ++ data_vars x)%list as [|[n v] l IH]; cbn; [reflexivity|].
    rewrite IH. reflexivity. }
  rewrite !E, Hc, Hd. reflexivity.
Qed.






Lemma rename_vars_names nd ds ds' :
  rename_vars nd ds = Ok ds' ->
  map fst (variables ds') = map (rename_name nd) (map fst (variables ds)).
Proof.
  unfold rename_vars, rebuild. destruct (forallb _ nd); [|discriminate].
  destruct (nodupb _); [|discriminate]. intros H. injection H as <-.
  unfold variables. cbn [coords data_vars]. rewrite !map_app, !map_map.
  f_equal; apply map_ext; intros [k v]; reflexivity.
Qed.

Lemma In_names_pair k (l : list (string * variable)) : In k (map fst l) -> exists w, In (k, w) l.
Proof. intros H. apply in_map_iff in H as ([k' w] & Hk & Hin). cbn in Hk. subst. eauto. Qed.

Lemma rd_names ds variable var_mapping d :
  rename_and_delete_variables ds variable var_mapping = Ok d ->
  forall k, In k (map fst (variables d)) ->
    In k (map fst (variables ds)) \/ k = variable \/ k = "height".
Proof.
  unfold rename_and_delete_variables.
  set (vn := var_name_of var_mapping variable). clearbody vn. cbv zeta.
  destruct (rename_vars [(vn, variable)] ds) as [ds1|e] eqn:E1; cbn [rbind]; [|discriminate].
  set (ds2 := assign_coord "height" (scalar 2) ds1).
  destruct (select_vars [variable] ds2) as [ds3|e] eqn:E3; cbn [rbind]; [|discriminate].
  destruct (rd_select _ _ _ (rename_has_variable _ _ _ _ E1) E3) as (_ & H3c & _ & H3d).
  match goal with |- rbind ?M _ = Ok d -> _ => destruct M as [ds4|e] eqn:E4; cbn [rbind]; [|discriminate] end.
  destruct (rd_drop _ _ E4) as (H4c & _ & _ & H4e & H4x).
  intros E5. destruct (rd_expand _ _ E5) as (H5n & _ & H5e & H5x & _).
  assert (N1 : forall k, In k (map fst (variables ds1)) -> In k (map fst (variables ds)) \/ k = variable).
  { intros k Hk. rewrite (rename_vars_names _ _ _ E1) in Hk.
    apply in_map_iff in Hk as (k0 & <- & Hk0). rewrite rename_single.
    destruct (String.eqb k0 vn); [right; reflexivity | left; exact Hk0]. }
  intros k Hk. unfold variables in Hk. rewrite map_app in Hk. apply in_app_or in Hk as [Hk|Hk].
  - rewrite H5n in Hk. apply In_names_pair in Hk as [w Hw].
    apply H4c in Hw as [Hw _]. apply H3c in Hw. unfold ds2 in Hw.
    apply assign_coord_coords in Hw as [[-> _] | [_ Hw]]; [right; right; reflexivity|].
    destruct (N1 k) as [H|H]; [| left; exact H | right; left; exact H].
    unfold variables. rewrite map_app. apply in_or_app. left. exact (in_map fst _ (k, w) Hw).
  - right; left.
    destruct H3d as [H3d | (w & H3d & _ & _ & Hinc)].
    + rewrite (H5e (H4e H3d)) in Hk. destruct Hk.
    + destruct (H4x _ H3d) as [H4d | H4d].
      * rewrite (H5e H4d) in Hk. destruct Hk.
      * destruct (H5x _ _ H4d) as (w' & Hd & _).
        { intros [k0 w0] Hin. apply (Hinc (k0, w0)). apply H4c in Hin as [Hin _]. exact Hin. }
        rewrite Hd in Hk.
        destruct Hk as [<-|[]]. reflexivity.
Qed.

Lemma rename_vars_vals nd ds ds' k w :
  rename_vars nd ds = Ok ds' -> In (k, w) (variables ds') -> exists k0, In (k0, w) (variables ds).
Proof.
  unfold rename_vars, rebuild. destruct (forallb _ nd); [|discriminate].
  destruct (nodupb _); [|discriminate]. intros H. injection H as <-.
  unfold variables. cbn [coords data_vars]. rewrite <- map_app. intros Hin.
  apply in_map_iff in Hin as ([k0 w0] & Hk & Hin). injection Hk as _ <-. eauto.
Qed.

(** The dimensions of the output of [rename_and_delete_variables] are
    time and dimensions of the input. *)
Lemma rd_dims ds variable var_mapping d :
  rename_and_delete_variables ds variable var_mapping = Ok d ->
  forall k w x, In (k, w) (variables d) -> In x (dim_names w) ->
    x = "time" \/ exists k0 w0, In (k0, w0) (variables ds) /\ In x (dim_names w0).
Proof.
  unfold rename_and_delete_variables.
  set (vn := var_name_of var_mapping variable). clearbody vn. cbv zeta.
  destruct (rename_vars [(vn, variable)] ds) as [ds1|e] eqn:E1; cbn [rbind]; [|discriminate].
  set (ds2 := assign_coord "height" (scalar 2) ds1).
  destruct (select_vars [variable] ds2) as [ds3|e] eqn:E3; cbn [rbind]; [|discriminate].
  destruct (rd_select _ _ _ (rename_has_variable _ _ _ _ E1) E3) as (_ & H3c & _ & H3d).
  match goal with |- rbind ?M _ = Ok d -> _ => destruct M as [ds4|e] eqn:E4; cbn [rbind]; [|discriminate] end.
  destruct (rd_drop _ _ E4) as (H4c & _ & _ & H4e & H4x).
  intros E5. destruct (rd_expand _ _ E5) as (_ & _ & H5e & H5x & H5c).
  assert (B2 : forall k w x, In (k, w) (variables ds2) -> In x (dim_names w) ->
      exists k0 w0, In (k0, w0) (variables ds) /\ In x (dim_names w0)).
  { intros k w x Hin Hx. unfold variables in Hin. apply in_app_or in Hin as [Hin|Hin].
    - unfold ds2 in Hin. apply assign_coord_coords in Hin as [[_ ->] | [_ Hin]]; [destruct Hx|].
      destruct (rename_vars_vals _ _ _ k w E1) as [k0 H0];
        [unfold variables; apply in_or_app; left; exact Hin|]. eauto.
    - unfold ds2 in Hin. apply assign_coord_data_vars in Hin as [_ Hin].
      destruct (rename_vars_vals _ _ _ k w E1) as [k0 H0];
        [unfold variables; apply in_or_app; right; exact Hin|]. eauto. }
  intros k w x Hin Hx. unfold variables in Hin. apply in_app_or in Hin as [Hin|Hin].
  - destruct (H5c _ _ Hin) as (w0 & Hin0 & Hinc). destruct (Hinc x Hx) as [Hx0|Hx0]; [left; auto|].
    right. apply (B2 k w0); [|exact Hx0]. unfold variables. apply in_or_app. left.
    apply H3c. exact (proj1 (H4c _ _ Hin0)).
  - destruct H3d as [H3d | (w3 & H3d & _ & Hin2 & Hinc)].
    + rewrite (H5e (H4e H3d)) in Hin. destruct Hin.
    + destruct (H4x _ H3d) as [H4d | H4d]; [rewrite (H5e H4d) in Hin; destruct Hin|].
      destruct (H5x _ _ H4d) as (w' & Hd & _ & _ & Hdt1 & Hdt2 & _).
      { intros [k0 w0] Hin0. apply (Hinc (k0, w0)). apply H4c in Hin0 as [Hin0 _]. exact Hin0. }
      rewrite Hd in Hin. destruct Hin as [Hin|[]]. injection Hin as <- <-.
      assert (Hx' : x = "time" \/ In x (dim_names w3)).
      { destruct (in_dec string_dec "time" (dim_names w3)) as [Ht|Ht].
        - right. unfold dim_names in Hx |- *. rewrite (Hdt1 Ht) in Hx. exact Hx.
        - unfold dim_names in Hx. rewrite (Hdt2 Ht) in Hx. destruct Hx as [<-|Hx]; [left; reflexivity|right; exact Hx]. }
      destruct Hx' as [Hx'|Hx']; [left; exact Hx'|]. right. apply (B2 variable w3); [|exact Hx'].
      unfold variables. apply in_or_app. right. exact Hin2.
Qed.

(** For a CERRA project, the longitude stage reads the variable longitude.
    When [fix_spatial_coord_names] has left neither a variable nor a
    dimension of that name (it renames longitude to lon in its cases 1, 2
    and 6), [preprocess] raises: KeyError longitude, or an earlier
    exception of [rename_and_delete_variables] (unless [variable] is
    longitude). *)
Theorem preprocess_cerra_longitude {keep_attrs : bool} (ds d1 : Dataset) (project variable : string)
    (variable_map : gmap string string) :
  str_contains "CERRA" project = true -> variable <> "longitude" ->
  fix_spatial_coord_names ds = Ok d1 -> ~ In "longitude" (map fst (variables d1)) ->
  dim_size "longitude" (variables d1) = None ->
  preprocess keep_attrs ds project variable variable_map = Err (KeyError "longitude") \/
  exists e, rename_and_delete_variables d1 variable variable_map = Err e /\
    preprocess keep_attrs ds project variable variable_map = Err e.
Proof.
  intros Hc Hv E1 Hn Hs. rewrite preprocess_eq_stages. unfold preprocess_stages. rewrite E1. cbn [rbind].
  destruct (rename_and_delete_variables d1 variable variable_map) as [d2|e] eqn:E2; cbn [rbind];
    [left | right; exists e; auto].
  assert (Hln : lon_name project = "longitude") by (unfold lon_name; rewrite Hc; reflexivity).
  assert (Hn2 : assoc (lon_name project) (variables d2) = None).
  { rewrite Hln. apply assoc_none. intros w Hw.
    destruct (rd_names _ _ _ _ E2 "longitude" (in_map fst _ _ Hw)) as [H|[H|H]];
      [exact (Hn H) | exact (Hv (eq_sym H)) | discriminate]. }
  assert (Hs2 : dim_size (lon_name project) (variables d2) = None).
  { rewrite Hln. apply dim_size_none. intros k w Hw. apply assoc_none. intros n Hn'.
    destruct (rd_dims _ _ _ _ E2 k w "longitude" Hw) as [H|(k0 & w0 & Hin0 & Hx)];
      [unfold dim_names; exact (in_map fst _ (_, n) Hn') | discriminate |].
    apply dim_size_none with (n := k0) (v := w0) in Hs; [|exact Hin0].
    unfold dim_names in Hx. apply in_map_iff in Hx as ([x m] & Hxe & Hm). cbn in Hxe. subst x.
    apply assoc_In_Some in Hm as [a Ha]. congruence. }
  rewrite (fix_360_longitudes_no_lon d2 project Hn2 Hs2), Hln. reflexivity.
Qed.

(* ------------------------------------------------------------------ *)
(** ** get_output_path and provider_cli *)

Lemma str_app_cons (x : ascii) (a b : string) : (String x a ++ b) = String x (a ++ b).
Proof. reflexivity. Qed.

Lemma str_app_assoc (a b c : string) : ((a ++ b) ++ c) = (a ++ (b ++ c)).
Proof. induction a as [|x a IH]; [reflexivity | rewrite !str_app_cons, IH; reflexivity]. Qed.

Lemma str_app_inv_l (p s1 s2 : string) : (p ++ s1) = (p ++ s2) -> s1 = s2.
Proof. induction p as [|x p IH]; [auto | rewrite !str_app_cons; intros H; injection H; exact IH]. Qed.

Lemma str_app_split (s1 s2 t1 t2 : string) :
  String.length s1 = String.length s2 -> (s1 ++ t1) = (s2 ++ t2) -> s1 = s2 /\ t1 = t2.
Proof.
  revert s2. induction s1 as [|x s1 IH]; intros [|y s2]; cbn [String.length]; try discriminate; [auto|].
  rewrite !str_app_cons. intros Hl H. injection Hl as Hl. injection H as -> H. destruct (IH s2 Hl H) as [-> ->]. auto.
Qed.

Lemma str_app_length (s t : string) : String.length (s ++ t) = (String.length s + String.length t)%nat.
Proof. induction s as [|x s IH]; [reflexivity | rewrite str_app_cons; cbn [String.length]; rewrite IH; reflexivity]. Qed.

Lemma str_app_inv_r (s1 s2 t : string) : (s1 ++ t) = (s2 ++ t) -> s1 = s2.
Proof.
  intros H. assert (Hl : String.length s1 = String.length s2).
  { apply (f_equal String.length) in H. rewrite !str_app_length in H. lia. }
  exact (proj1 (str_app_split _ _ _ _ Hl H)).
Qed.

Lemma truthy_str_some (s : string) : s <> EmptyString -> truthy_str (Some s) = Some s.
Proof. intros H. cbn. destruct (String.eqb_spec s EmptyString); [contradiction | reflexivity]. Qed.

(** [get_output_path] writes day, month and year with no separator: with a
    day, two dates whose day, month and year concatenate to the same string
    share one path (day 1 of month 11 and day 11 of month 1); without a
    day, the same holds for month and year. *)
Theorem get_output_path_date_concat (catalogue_entry output_directory variable : string)
    (d1 d2 : option string) (m1 m2 y1 y2 : string) (hour : option string) :
  (forall s1 s2, truthy_str d1 = Some s1 -> truthy_str d2 = Some s2 ->
     (s1 ++ m1 ++ y1) = (s2 ++ m2 ++ y2) ->
     get_output_path catalogue_entry output_directory variable d1 m1 y1 hour =
     get_output_path catalogue_entry output_directory variable d2 m2 y2 hour) /\
  (truthy_str d1 = None -> truthy_str d2 = None -> (m1 ++ y1) = (m2 ++ y2) ->
     get_output_path catalogue_entry output_directory variable d1 m1 y1 hour =
     get_output_path catalogue_entry output_directory variable d2 m2 y2 hour).
Proof.
  unfold get_output_path. split.
  - intros s1 s2 H1 H2 E. rewrite H1, H2.
    destruct (truthy_str hour) as [h|]; [|rewrite E; reflexivity].
    assert (A : forall a b c x : string, (a ++ b ++ c ++ x) = ((a ++ b ++ c) ++ x))
      by (intros; rewrite !str_app_assoc; reflexivity).
    rewrite (A s1 m1 y1), (A s2 m2 y2), E. reflexivity.
  - intros H1 H2 E. rewrite H1, H2. rewrite E. reflexivity.
Qed.

(** Without a day, [get_output_path] ignores the hour; with one, only the
    hour's text before the first colon enters the path, so the minutes are
    dropped. *)
Theorem get_output_path_hour (catalogue_entry output_directory variable : string)
    (day : option string) (month year : string) (h1 h2 : option string) :
  (truthy_str day = None ->
     get_output_path catalogue_entry output_directory variable day month year h1 =
     get_output_path catalogue_entry output_directory variable None month year None) /\
  (forall s1 s2, truthy_str h1 = Some s1 -> truthy_str h2 = Some s2 ->
     split_colon_head s1 = split_colon_head s2 ->
     get_output_path catalogue_entry output_directory variable day month year h1 =
     get_output_path catalogue_entry output_directory variable day month year h2).
Proof.
  unfold get_output_path. split.
  - intros H. rewrite H. reflexivity.
  - intros s1 s2 H1 H2 E. rewrite H1, H2, E. reflexivity.
Qed.



Lemma format_02_0f_small (m : Z) :
  (0 <= m <= 99)%Z ->
  exists s, format_02_0f m = Some s /\ String.length s = 2%nat /\ two_digit_value s = m.
Proof.
  intros Hm. assert (C : format_02_0f_small_check = true) by (vm_compute; reflexivity).
  unfold format_02_0f_small_check in C. rewrite forallb_forall in C.
  specialize (C (Z.to_nat m)). rewrite Z2Nat.id in C by lia.
  destruct (format_02_0f m) as [s|]; [exists s | ];
    (assert (P : In (Z.to_nat m) (seq 0 100)) by (apply in_seq; lia)); specialize (C P); [|discriminate].
  apply andb_true_iff in C as [C1 C2]. apply Nat.eqb_eq in C1. apply Z.eqb_eq in C2. auto.
Qed.

(** The month ["{:02.0f}"] and the year [str] that [provider_cli] passes
    on (with no day and no time) give distinct output paths to distinct
    months from 0 to 99 and distinct years. *)
Theorem provider_cli_paths_distinct (catalogue_entry output_directory variable : string)
    (m1 m2 y1 y2 : Z) (s1 s2 : string) :
  (0 <= m1 <= 99)%Z -> (0 <= m2 <= 99)%Z ->
  format_02_0f m1 = Some s1 -> format_02_0f m2 = Some s2 ->
  get_output_path catalogue_entry output_directory variable None s1 (pretty y1) None =
  get_output_path catalogue_entry output_directory variable None s2 (pretty y2) None ->
  m1 = m2 /\ y1 = y2.
Proof.
  intros Hm1 Hm2 F1 F2. unfold get_output_path. cbn [truthy_str].
  intros H. repeat apply str_app_inv_l in H. apply str_app_inv_r in H.
  destruct (format_02_0f_small m1 Hm1) as (t1 & E1 & L1 & V1).
  destruct (format_02_0f_small m2 Hm2) as (t2 & E2 & L2 & V2).
  rewrite F1 in E1. injection E1 as <-. rewrite F2 in E2. injection E2 as <-.
  destruct (str_app_split s1 s2 _ _ (eq_trans L1 (eq_sym L2)) H) as [-> Hy].
  split; [congruence | exact (inj pretty _ _ Hy)].
Qed.

(** [provider_cli] raises NotImplementedError for a project other than
    CERRA and ERA5, KeyError for a variable other than tas, and
    OverflowError for a month too large for a float, each before any
    download or file access: the world is left as it was. *)
Theorem provider_cli_rejects_early {W : Type}
    (download_cerra_data download_era5_data :
       string -> string -> string -> option string -> option string -> string -> W -> result string * W)
    (open_dataset : string -> W -> result Dataset * W)
    (to_netcdf : Dataset -> string -> W -> result unit * W) (keep_attrs : bool)
    (output_dir project variable : string) (year month : Z) (w : W) :
  let run := provider_cli download_cerra_data download_era5_data open_dataset to_netcdf keep_attrs
               output_dir project variable year month w in
  (project <> "CERRA" -> project <> "ERA5" -> run = (inr (PyExn NotImplementedError), w)) /\
  (project = "CERRA" \/ project = "ERA5" -> variable <> "tas" ->
     run = (inr (PyExn (KeyError variable)), w)) /\
  (project = "CERRA" \/ project = "ERA5" -> variable = "tas" -> format_02_0f month = None ->
     run = (inr OverflowError, w)).
Proof.
  cbv zeta. unfold provider_cli. split; [|split].
  - intros H1 H2. destruct (String.eqb_spec project "CERRA"); [contradiction|].
    destruct (String.eqb_spec project "ERA5"); [contradiction | reflexivity].
  - intros Hp Hv.
    assert (Ha : assoc variable [("tas", "2m_temperature")] = None).
    { cbn. destruct (String.eqb_spec variable "tas"); [contradiction | reflexivity]. }
    destruct Hp as [->| ->]; cbn -[assoc]; rewrite Ha; reflexivity.
  - intros Hp -> Hf. destruct Hp as [->| ->]; cbn -[format_02_0f]; rewrite Hf; reflexivity.
Qed.


(** What [rename_and_delete_variables] returns: unique names, a coordinate
    height equal to the scalar 2, only main coordinates, and either no data
    variable or [variable] alone, with a time dimension, holding the values
    and attributes of the variable it was renamed from, with time added in
    front of its dimensions when it had none. *)
Theorem rename_and_delete_variables_shape (ds d : Dataset) (variable : string)
    (var_mapping : gmap string string) :
  rename_and_delete_variables ds variable var_mapping = Ok d ->
  names_unique d /\
  assoc "height" (coords d) = Some (scalar 2) /\
  (forall k, In k (map fst (coords d)) -> In k main_coords) /\
  (data_vars d = [] \/
   exists w, data_vars d = [(variable, w)] /\ in_dims "time" d = true /\
     exists v, In (var_name_of var_mapping variable, v) (variables ds) /\
       vdata w = vdata v /\ vattrs w = vattrs v /\
       (In "time" (dim_names v) -> vdims w = vdims v) /\
       (~ In "time" (dim_names v) -> vdims w = ("time", 1%nat) :: vdims v)).
Proof. exact (rd_shape ds d variable var_mapping). Qed.

(** On a Dataset with unique names, a successful [convert_units] keeps the
    coordinates and the names and dimensions of the data variables; each
    data variable has a units attribute and an expected unit, and is either
    kept, when they agree, or converted by the scale and offset of
    [UNIT_CONVERTER]: its attributes are those the arithmetic keeps (all of
    them, or none, by [keep_attrs]) with units set to the target unit. *)
Theorem convert_units_success {keep_attrs : bool} (ds d : Dataset) :
  names_unique ds -> convert_units keep_attrs ds = Ok d ->
  coords d = coords ds /\ dims_of (data_vars d) = dims_of (data_vars ds) /\
  forall n v, In (n, v) (data_vars ds) ->
    exists u valid, assoc "units" (vattrs v) = Some u /\ assoc n VALID_UNITS = Some valid /\
      ((u = valid /\ In (n, v) (data_vars d)) \/
       (u <> valid /\ exists s o t, assoc u UNIT_CONVERTER = Some (s, o, t) /\
          In (n, converted keep_attrs v s o t) (data_vars d))).
Proof. exact (convert_units_ok ds d). Qed.

(** *** Witnesses *)

Lemma fix_spatial_coord_names_errors_witness :
  fix_spatial_coord_names (mkDs [] [("t2m", v1 "time" 1 [280%Q])]) = Err NotImplementedError.
Proof.
  apply (proj2 (proj1 (fix_spatial_coord_names_errors _))).
  vm_compute. repeat (split || reflexivity).
Defined.

Lemma fix_spatial_coord_names_keeps_contents_witness :
  exists d, fix_spatial_coord_names rotated_ds = Ok d /\
    contents (coords d) = contents (coords rotated_ds) /\
    contents (data_vars d) = contents (data_vars rotated_ds).
Proof.
  destruct (fix_spatial_coord_names rotated_ds) as [d|e] eqn:E; [|discriminate E].
  exists d. split; [reflexivity|].
  exact (fix_spatial_coord_names_keeps_contents rotated_ds d E).
Defined.




Lemma rename_and_delete_variables_shape_witness :
  exists d, rename_and_delete_variables era5_ds "tas" {["tas" := "t2m"]} = Ok d /\
    names_unique d /\ assoc "height" (coords d) = Some (scalar 2).
Proof.
  destruct (rename_and_delete_variables era5_ds "tas" {["tas" := "t2m"]}) as [d|e] eqn:E;
    [|discriminate E].
  exists d. split; [reflexivity|].
  destruct (rename_and_delete_variables_shape era5_ds d "tas" {["tas" := "t2m"]} E)
    as (Hu & Hh & _).
  split; [exact Hu | exact Hh].
Defined.

Lemma rename_and_delete_variables_rename_errors_witness :
  rename_and_delete_variables era5_ds "pr" {["pr" := "tp"]} = Err ValueError /\
  rename_and_delete_variables era5_clash_ds "tas" {["tas" := "t2m"]} = Err ValueError.
Proof.
  split.
  - apply (proj1 (rename_and_delete_variables_rename_errors era5_ds "pr" {["pr" := "tp"]})).
    apply memb_false. vm_compute. reflexivity.
  - apply (proj2 (rename_and_delete_variables_rename_errors era5_clash_ds "tas" {["tas" := "t2m"]})).
    + apply memb_true. vm_compute. reflexivity.
    + vm_compute. discriminate.
Defined.

Lemma convert_units_success_witness :
  exists d, convert_units true rsds_ds = Ok d /\ coords d = coords rsds_ds /\
    dims_of (data_vars d) = dims_of (data_vars rsds_ds).
Proof.
  assert (Hu : names_unique rsds_ds) by unique_names.
  destruct (convert_units true rsds_ds) as [d|e] eqn:E; [|discriminate E].
  exists d. split; [reflexivity|].
  destruct (convert_units_success rsds_ds d Hu E) as (Hc & Hd & _).
  split; [exact Hc | exact Hd].
Defined.

Lemma convert_units_temperature_witness :
  exists d w, convert_units true fahrenheit_ds = Ok d /\ In ("tas", w) (data_vars d) /\
    vattrs w = set_attr "units" "Celsius"
      (arith_attrs true [("units", "Fahrenheit"); ("long_name", "air temperature")]) /\
    Forall2 (fun x y => y == (x - 32) * (5 # 9))%Q [212%Q] (vdata w).
Proof.
  assert (Hu : names_unique fahrenheit_ds) by unique_names.
  destruct (convert_units true fahrenheit_ds) as [d|e] eqn:E; [|discriminate E].
  set (v := mkVar [("time", 1%nat)] [212%Q] [("units", "Fahrenheit"); ("long_name", "air temperature")]).
  assert (Hin : In ("tas", v) (data_vars fahrenheit_ds)) by (left; reflexivity).
  destruct (convert_units_temperature fahrenheit_ds d "tas" v Hu E Hin eq_refl)
    as (w & Hw & _ & _ & _ & _ & HF).
  destruct (HF eq_refl) as [Ha Hq].
  exists d, w. split; [reflexivity|]. split; [exact Hw|]. split; [exact Ha | exact Hq].
Defined.


Lemma preprocess_cerra_longitude_witness :
  preprocess true rotated_ds "CERRA" "tas" {["tas" := "t2m"]} = Err (KeyError "longitude") \/
  exists e, preprocess true rotated_ds "CERRA" "tas" {["tas" := "t2m"]} = Err e.
Proof.
  destruct (fix_spatial_coord_names rotated_ds) as [d1|e] eqn:E; [|discriminate E].
  assert (Hn : ~ In "longitude" (map fst (variables d1))).
  { apply memb_false. vm_compute in E. injection E as <-. vm_compute. reflexivity. }
  assert (Hs : dim_size "longitude" (variables d1) = None).
  { vm_compute in E. injection E as <-. vm_compute. reflexivity. }
  destruct (preprocess_cerra_longitude (keep_attrs:=true) rotated_ds d1 "CERRA" "tas" {["tas" := "t2m"]}
              eq_refl ltac:(discriminate) E Hn Hs) as [H | (e & _ & H)].
  - left. exact H.
  - right. exists e. exact H.
Defined.

Lemma get_output_path_date_concat_witness :
  get_output_path "reanalysis-era5-single-levels" "/tmp" "2m_temperature" (Some "1") "11" "2021" None =
  get_output_path "reanalysis-era5-single-levels" "/tmp" "2m_temperature" (Some "11") "1" "2021" None.
Proof.
  exact (proj1 (get_output_path_date_concat "reanalysis-era5-single-levels" "/tmp" "2m_temperature"
                  (Some "1") (Some "11") "11" "1" "2021" "2021" None) "1" "11" eq_refl eq_refl eq_refl).
Defined.

Lemma get_output_path_hour_witness :
  get_output_path "reanalysis-cerra-single-levels" "/tmp" "2m_temperature" (Some "01") "01" "2021" (Some "00:00") =
  get_output_path "reanalysis-cerra-single-levels" "/tmp" "2m_temperature" (Some "01") "01" "2021" (Some "00:30").
Proof.
  exact (proj2 (get_output_path_hour "reanalysis-cerra-single-levels" "/tmp" "2m_temperature"
                  (Some "01") "01" "2021" (Some "00:00") (Some "00:30")) "00:00" "00:30" eq_refl eq_refl eq_refl).
Defined.

Lemma provider_cli_paths_distinct_witness :
  (1 = 1 /\ 2010 = 2010)%Z.
Proof.
  apply (provider_cli_paths_distinct "reanalysis-era5-single-levels" "/tmp" "2m_temperature"
           1 1 2010 2010 "01" "01"); [lia | lia | reflexivity | reflexivity | reflexivity].
Defined.

Lemma provider_cli_rejects_early_witness :
  provider_cli (W := unit)
    (fun _ _ _ _ _ _ w => (Ok "f.nc", w)) (fun _ _ _ _ _ _ w => (Ok "f.nc", w))
    (fun _ w => (Err ValueError, w)) (fun _ _ w => (Ok tt, w)) true
    "/tmp" "CMIP6" "tas" 2010 1 tt = (inr (PyExn NotImplementedError), tt).
Proof.
  exact (proj1 (provider_cli_rejects_early
                  (fun _ _ _ _ _ _ w => (Ok "f.nc", w)) (fun _ _ _ _ _ _ w => (Ok "f.nc", w))
                  (fun _ w => (Err ValueError, w)) (fun _ _ w => (Ok tt, w)) true
                  "/tmp" "CMIP6" "tas" 2010 1 tt) ltac:(discriminate) ltac:(discriminate)).
Defined.
